(** * The EMNIST lab notebook [lab_emnist_partial.ipynb]

    A shallow embedding of the code cells of the notebook: the download
    helper [download_file] and the cell that drives it, [load_emnist], and
    the stub cells marked [# TODO n].  Python's effects (printing, the file
    system, HTTP requests, global variables, exceptions) are threaded through
    an explicit state-and-exception monad. *)

From Stdlib Require Import ZArith QArith Lqa Ascii String.
From stdpp Require Import base tactics option list gmap strings pretty.

Local Open Scope Z_scope.
Local Open Scope string_scope.

(** ** Python values, exceptions and the interpreter state *)

Module Py.

(** The exceptions the modelled code can raise. *)
Inductive exn :=
| NameError (name : string)
| KeyError (key : string)
| IndexError
| ValueError
| TypeError
| AttributeError
| ConnectionError
| ChunkedEncodingError
| FileNotFoundError (path : string)
| NotADirectoryError (path : string)
| IsADirectoryError (path : string)
| BadZipFile.

(** numpy element types that occur in the notebook. *)
Inductive dtype := UInt8 | Int64 | Float64.

(** A numpy array: element type tag, shape and row-major data. *)
Record ndarray (A : Type) := NdArray {
  nd_dtype : dtype;
  nd_shape : list nat;
  nd_data : list A
}.
Arguments NdArray {A} _ _ _.
Arguments nd_dtype {A} _.
Arguments nd_shape {A} _.
Arguments nd_data {A} _.

(** Values bound to global names.  A float is kept as the exact rational
    its literal denotes; an object is an instance of a class that defines
    neither [__bool__] nor [__len__], as the [ZipFile] the download cell
    binds. *)
#[warnings="-register-all"]
Inductive val :=
| VNone
| VBool (b : bool)
| VInt (z : Z)
| VFloat (q : Q)
| VStr (s : string)
| VList (l : list val)
| VIntArr (a : ndarray Z)
| VFloatArr (a : ndarray Q)
| VModule (name : string)
| VFunc (name : string)
| VObject (class : string).

(** A node of the file system: a regular file with its bytes, or a
    directory. *)
Inductive node :=
| File (content : list Byte.byte)
| Dir.

(** What the program does to the outside world, in order. *)
Inductive event :=
| EvPrint (line : string)
| EvGet (url : string)
| EvOpenW (path : string)
| EvWrite (path : string) (len : nat)
| EvProgress (total : Z)
| EvTick
| EvOpenR (path : string)
| EvExtract (path : string)
| EvImport (name : string).

(** The state a cell runs in: the files (a map from path to node, in which
    what exists lies in directories that exist; permissions are not
    modelled), the notebook's global variables, and the trace of events so
    far. *)
Record world := World {
  files : gmap string node;
  globals : gmap string val;
  trace : list event
}.

Inductive outcome (A : Type) :=
| Ret (a : A)
| Raise (e : exn).
Arguments Ret {A} _.
Arguments Raise {A} _.

#[global] Instance outcome_ret : MRet outcome := λ A a, Ret a.
#[global] Instance outcome_bind : MBind outcome := λ A B f o,
  match o with
  | Ret a => f a
  | Raise e => Raise e
  end.

Definition to_option {A} (o : outcome A) : option A :=
  match o with
  | Ret a => Some a
  | Raise _ => None
  end.

(** Python truth value, as [if] and [not] take it.  A numpy array of one
    element is as true as its element, an empty array is false (in the
    numpy releases for the notebook's Python 3.8), and an array of several
    elements has no truth value: [ValueError]. *)
Definition truthy (v : val) : outcome bool :=
  match v with
  | VNone => Ret false
  | VBool b => Ret b
  | VInt z => Ret (negb (Z.eqb z 0))
  | VFloat q => Ret (negb (Qeq_bool q 0))
  | VStr s => Ret (negb (String.eqb s EmptyString))
  | VList l => Ret (match l with [] => false | _ => true end)
  | VIntArr a =>
      match nd_data a with
      | [] => Ret false
      | [z] => Ret (negb (Z.eqb z 0))
      | _ => Raise ValueError
      end
  | VFloatArr a =>
      match nd_data a with
      | [] => Ret false
      | [q] => Ret (negb (Qeq_bool q 0))
      | _ => Raise ValueError
      end
  | VModule _ | VFunc _ | VObject _ => Ret true
  end.

(** A computation: runs in a world, returns or raises, and leaves a world
    behind in both cases (what was written before an exception stays). *)
Definition py (A : Type) : Type := world → outcome A * world.

#[global] Instance py_ret : MRet py := λ A a w, (Ret a, w).
#[global] Instance py_bind : MBind py := λ A B f m w,
  match m w with
  | (Ret a, w') => f a w'
  | (Raise e, w') => (Raise e, w')
  end.

Definition raise {A} (e : exn) : py A := λ w, (Raise e, w).

(** An expression that only computes: its value or its exception, the
    world untouched. *)
Definition lift {A} (o : outcome A) : py A := λ w, (o, w).

Definition emit (ev : event) : py unit := λ w,
  (Ret (), World (files w) (globals w) (trace w ++ [ev])).

(** [print(s)] *)
Definition print (s : string) : py unit := emit (EvPrint s).

(** [x = v] at the top level of a cell *)
Definition assign (x : string) (v : val) : py unit := λ w,
  (Ret (), World (files w) (<[x := v]> (globals w)) (trace w)).

(** reading the global [x]; an unbound name raises [NameError] *)
Definition var (x : string) : py val := λ w,
  match globals w !! x with
  | Some v => (Ret v, w)
  | None => (Raise (NameError x), w)
  end.

(** [os.path.exists(p)] *)
Definition os_path_exists (p : string) : py bool := λ w,
  (Ret (bool_decide (is_Some (files w !! p))), w).

(** [os.path.join(a, b)] for two components, POSIX flavour *)
Fixpoint ends_with_slash (a : string) : bool :=
  match a with
  | EmptyString => false
  | String c EmptyString => Ascii.eqb c "/"%char
  | String _ rest => ends_with_slash rest
  end.

Definition os_path_join (a b : string) : string :=
  match b with
  | String c _ =>
      if Ascii.eqb c "/"%char then b
      else if String.eqb a EmptyString || ends_with_slash a then a +:+ b
      else a +:+ "/" +:+ b
  | EmptyString =>
      if String.eqb a EmptyString || ends_with_slash a then a else a +:+ "/"
  end.

(** The directories above a path, outermost first: ["a"] and ["a/b"] for
    ["a/b/c"].  Paths are taken relative to the working directory and in
    normal form (no [.] or [..], no doubled or trailing slash); the working
    directory and the root always exist and are not listed. *)
Fixpoint ancestors_from (prefix rest : string) : list string :=
  match rest with
  | EmptyString => []
  | String c rest' =>
      if Ascii.eqb c "/"%char then
        (if String.eqb prefix EmptyString || String.eqb prefix "/" then []
         else [prefix])
        ++ ancestors_from (prefix +:+ "/") rest'
      else ancestors_from (prefix +:+ String c EmptyString) rest'
  end.

Definition ancestors (path : string) : list string :=
  ancestors_from EmptyString path.

(** [os.path.dirname(path)], when it is not the working directory or the
    root *)
Definition parent_dir (path : string) : option string := last (ancestors path).

(** What stands in the way of creating a file at [path]: its directory is
    missing, or is a regular file. *)
Definition parent_check (fs : gmap string node) (path : string) : outcome unit :=
  match parent_dir path with
  | None => Ret ()
  | Some p =>
      match fs !! p with
      | Some Dir => Ret ()
      | Some (File _) => Raise (NotADirectoryError path)
      | None => Raise (FileNotFoundError path)
      end
  end.

(** The directory of [path] exists. *)
Definition can_create (fs : gmap string node) (path : string) : Prop :=
  parent_check fs path = Ret ().

(** The events a run from [w] to [w'] has added. *)
Definition new_events (w w' : world) : list event :=
  drop (length (trace w)) (trace w').

(** The events of a trace that are lines printed. *)
Definition printed (t : list event) : list string :=
  omap (λ ev, match ev with EvPrint s => Some s | _ => None end) t.

(** The events of a trace that are HTTP requests. *)
Definition requested (t : list event) : list string :=
  omap (λ ev, match ev with EvGet u => Some u | _ => None end) t.

(** The events of a trace that open a file for writing. *)
Definition opened_w (t : list event) : list string :=
  omap (λ ev, match ev with EvOpenW p => Some p | _ => None end) t.

End Py.
Import Py.


(** ** The download cell: [download_file] and the code that calls it *)

Module Download.

(** The [content-length] header of a response as [int(...)] reads it:
    absent (the default 0 is used), an integer literal, or text that [int]
    rejects. *)
Inductive header :=
| HAbsent
| HInt (n : Z)
| HMalformed.

(** What [requests.get(url, stream=True)] hands back: the header, the
    blocks [iter_content] yields in order, and whether the stream breaks
    off with an exception after the last of them. *)
Record response := Response {
  content_length : header;
  chunks : list (list Byte.byte);
  broken : bool
}.

Section Remote.

(** The remote side: the response to a request for a URL ([None]: the
    connection cannot be made), and the decoder of zip archives that
    [zipfile] provides ([None]: not a zip file), which gives the members
    in order, each under the path it is extracted to. *)
Variable http : string → option response.
Variable unzip : list Byte.byte → option (list (string * node)).

(** [requests.get(src_url, stream=True)] *)
Definition requests_get (url : string) : py response :=
  emit (EvGet url);;
  match http url with
  | Some r => mret r
  | None => raise ConnectionError
  end.

(** [int(r.headers.get('content-length', 0))] *)
Definition total_size_of (r : response) : py Z :=
  match content_length r with
  | HAbsent => mret 0
  | HInt n => mret n
  | HMalformed => raise ValueError
  end.

(** [open(dst_fn, 'wb')]: creates the file, or truncates it; the
    directory it lies in has to exist *)
Definition open_wb (path : string) : py unit := λ w,
  match parent_check (files w) path with
  | Raise e => (Raise e, w)
  | Ret _ =>
      match files w !! path with
      | Some Dir => (Raise (IsADirectoryError path), w)
      | _ => (Ret (), World (<[path := File []]> (files w)) (globals w)
                            (trace w ++ [EvOpenW path]))
      end
  end.

Definition append_to (data : list Byte.byte) (n : node) : node :=
  match n with
  | File c => File (c ++ data)
  | Dir => Dir
  end.

(** [f.write(data)] on the file opened at [path] *)
Definition file_write (path : string) (data : list Byte.byte) : py unit := λ w,
  (Ret (), World (alter (append_to data) path (files w)) (globals w)
                 (trace w ++ [EvWrite path (length data)])).

(** The body of [for data in r.iter_content(block_size)], run over the
    blocks that arrive; the result is the final value of [wrote]. *)
Fixpoint write_blocks (dst_fn : string) (blocks : list (list Byte.byte))
    (wrote : Z) : py Z :=
  match blocks with
  | [] => mret wrote
  | data :: rest =>
      let wrote := wrote + Z.of_nat (length data) in
      emit EvTick;;
      file_write dst_fn data;;
      write_blocks dst_fn rest wrote
  end.

(** The whole loop: the blocks, then the exception requests raises when
    the stream breaks off, [ChunkedEncodingError]. *)
Definition stream_to (dst_fn : string) (r : response) (wrote : Z) : py Z :=
  wrote ← write_blocks dst_fn (chunks r) wrote;
  if broken r then raise ChunkedEncodingError else mret wrote.

Definition error_line : string := "ERROR, something went wrong".

Definition download_file (src_url dst_fn : string) : py unit :=
  ex ← os_path_exists dst_fn;
  if ex : bool then
    print ("File " +:+ dst_fn +:+ " already exists")
  else
    print ("Downloading " +:+ dst_fn);;
    r ← requests_get src_url;
    total_size ← total_size_of r;
    let block_size := 1024 in
    let wrote := 0 in
    open_wb dst_fn;;
    emit (EvProgress (total_size `div` block_size));;
    wrote ← stream_to dst_fn r wrote;
    if negb (total_size =? 0)%Z && negb (wrote =? total_size)%Z
    then print error_line
    else mret ().

(** The value [total_size] gets from a response, when [int] accepts the
    header. *)
Definition declared_size (r : response) : option Z :=
  match content_length r with
  | HAbsent => Some 0
  | HInt n => Some n
  | HMalformed => None
  end.

(** The bytes a response delivers, and their number: the final value of
    [wrote] when the loop runs to its end. *)
Definition delivered (r : response) : list Byte.byte := concat (chunks r).
Definition wrote_of (r : response) : Z := Z.of_nat (length (delivered r)).

(** The events of the loop over the blocks. *)
Definition block_events (dst_fn : string) (blocks : list (list Byte.byte))
    : list event :=
  blocks ≫= λ data, [EvTick; EvWrite dst_fn (length data)].

(** The events up to the end of the loop when [dst_fn] is downloaded. *)
Definition transfer_events (src_url dst_fn : string) (total : Z)
    (r : response) : list event :=
  [EvPrint ("Downloading " +:+ dst_fn); EvGet src_url; EvOpenW dst_fn;
   EvProgress (total `div` 1024)] ++ block_events dst_fn (chunks r).

(** [zipfile.ZipFile(path, 'r')] *)
Definition zipfile_open (path : string) : py (list (string * node)) := λ w,
  match files w !! path with
  | None => (Raise (FileNotFoundError path), w)
  | Some Dir => (Raise (IsADirectoryError path), w)
  | Some (File c) =>
      match unzip c with
      | Some members =>
          (Ret members, World (files w) (globals w) (trace w ++ [EvOpenR path]))
      | None => (Raise BadZipFile, w)
      end
  end.

(** The directories of [dirs] that are missing are created. *)
Definition ensure_dirs (dirs : list string) (fs : gmap string node)
    : gmap string node :=
  foldl (λ acc d, match acc !! d with
                  | None => <[d := Dir]> acc
                  | Some _ => acc
                  end) fs dirs.

(** One member of an archive is written: the directories above it are
    created where they are missing, then the member itself. *)
Definition extract_member (name : string) (n : node) (fs : gmap string node)
    : gmap string node :=
  <[name := n]> (ensure_dirs (ancestors name) fs).

(** [zip_ref.extractall('.')]: every member lands at its own name below
    the working directory.  A member that clashes with what is there (a
    member below a regular file, a file member at a directory), on which
    [zipfile] raises, is not modelled. *)
Fixpoint extractall (members : list (string * node)) : py unit :=
  match members with
  | [] => mret ()
  | (name, n) :: rest =>
      (λ w, (Ret (), World (extract_member name n (files w)) (globals w)
                           (trace w ++ [EvExtract name])));;
      extractall rest
  end.

Definition matlab_dir : string := "matlab".
Definition digits_fn : string := os_path_join matlab_dir "emnist-digits.mat".
Definition letters_fn : string := os_path_join matlab_dir "emnist-letters.mat".
Definition zip_url : string :=
  "http://www.itl.nist.gov/iaui/vip/cs_links/EMNIST/matlab.zip".

(** The statements of the cell after the definition of [download_file]. *)
Definition driver : py unit :=
  assign "matlab_dir" (VStr matlab_dir);;
  assign "digits_fn" (VStr digits_fn);;
  assign "letters_fn" (VStr letters_fn);;
  d ← os_path_exists matlab_dir;
  (if d : bool then
     a ← os_path_exists digits_fn;
     b ← (if a : bool then os_path_exists letters_fn else mret false);
     if b : bool then
       print "Files already downloaded";;
       assign "files_exists" (VBool true)
     else mret ()
   else
     assign "files_exists" (VBool false));;
  files_exists ← var "files_exists";
  is_true ← lift (truthy files_exists);
  if negb is_true then
    let src_url := zip_url in
    let dst_fn := "matlab.zip" in
    assign "src_url" (VStr src_url);;
    assign "dst_fn" (VStr dst_fn);;
    download_file src_url dst_fn;;
    print ("Unzipping " +:+ dst_fn +:+ "...");;
    members ← zipfile_open dst_fn;
    assign "zip_ref" (VObject "ZipFile");;
    extractall members;;
    print "Unzip completed"
  else mret ().

(** [import m] and [from p import m]: the name is bound to the module. *)
Definition import_as (module name : string) : py unit :=
  emit (EvImport module);;
  assign name (VModule module).

(** The cell as a whole. *)
Definition download_cell : py unit :=
  import_as "tqdm.tqdm" "tqdm";;
  import_as "requests" "requests";;
  import_as "os" "os";;
  import_as "zipfile" "zipfile";;
  assign "download_file" (VFunc "download_file");;
  driver.

End Remote.

End Download.

(** ** [load_emnist] *)

Module Emnist.

(** What [scipy.io.loadmat] stores under a key: numeric arrays at the
    leaves, below containers (MATLAB struct arrays and their records, as
    numpy object arrays) that are indexed by position. *)
#[warnings="-register-all"]
Inductive matobj :=
| Leaf (a : ndarray Z)
| Node (items : list matobj).

(** [a.size] *)
Definition prod_shape (s : list nat) : nat := foldr Nat.mul 1%nat s.

(** [mat[key]] on the dictionary *)
Definition dict_get (mat : gmap string matobj) (key : string) : outcome matobj :=
  match mat !! key with
  | Some o => Ret o
  | None => Raise (KeyError key)
  end.

(** The [i]-th sub-array of a numeric array along its first axis. *)
Definition sub_array (i : nat) (a : ndarray Z) : option (ndarray Z) :=
  match nd_shape a with
  | [] => None
  | d :: ds =>
      if decide (i < d)%nat then
        Some (NdArray (nd_dtype a) ds
                (take (prod_shape ds) (drop (i * prod_shape ds) (nd_data a))))
      else None
  end.

(** [o[i]] for a non-negative integer [i]: the item of a container, the
    sub-array of a numeric array; out of range, or on a zero-dimensional
    array, an [IndexError]. *)
Definition getitem (i : nat) (o : matobj) : outcome matobj :=
  match o with
  | Node items =>
      match items !! i with
      | Some x => Ret x
      | None => Raise IndexError
      end
  | Leaf a =>
      match sub_array i a with
      | Some b => Ret (Leaf b)
      | None => Raise IndexError
      end
  end.

(** [o[:]]: the whole of [o]; a zero-dimensional array cannot be sliced *)
Definition full_slice (o : matobj) : outcome matobj :=
  match o with
  | Node _ => Ret o
  | Leaf a =>
      match nd_shape a with
      | [] => Raise IndexError
      | _ :: _ => Ret o
      end
  end.

(** [o.shape[0]] *)
Definition shape0 (o : matobj) : outcome nat :=
  match o with
  | Node items => Ret (length items)
  | Leaf a =>
      match nd_shape a with
      | [] => Raise IndexError
      | d :: _ => Ret d
      end
  end.

(** [o.reshape(n)]: the same elements as a vector of length [n], which
    must be the number of elements *)
Definition reshape (n : nat) (o : matobj) : outcome matobj :=
  match o with
  | Node items =>
      if decide (length items = n) then Ret o else Raise ValueError
  | Leaf a =>
      if decide (prod_shape (nd_shape a) = n)
      then Ret (Leaf (NdArray (nd_dtype a) [n] (nd_data a)))
      else Raise ValueError
  end.

(** The value an integer has as a 64-bit signed integer, numpy's [int] on
    Linux and macOS: it wraps around. *)
Definition wrap_int64 (z : Z) : Z :=
  (z + 2 ^ 63) `mod` 2 ^ 64 - 2 ^ 63.

(** [o.astype(int)]: the integer elements as 64-bit integers; a container
    of arrays or records has no integer value *)
Definition astype_int (o : matobj) : outcome matobj :=
  match o with
  | Node _ => Raise TypeError
  | Leaf a => Ret (Leaf (NdArray Int64 (nd_shape a) (wrap_int64 <$> nd_data a)))
  end.

Section Loader.

(** [scipy.io.loadmat], the library's parser of MATLAB files: any
    computation that returns a dictionary or raises. *)
Variable loadmat : string → py (gmap string matobj).

Definition loaded_line (ntr nts : nat) : string :=
  pretty ntr +:+ " training samples, " +:+ pretty nts +:+ " test samples loaded".

(** Postfix application, as in [mat['dataset'][0][:].reshape(n)]. *)
Local Notation "m .> f" := (mbind f m) (at level 50, left associativity).

Definition load_emnist (file_path : string) : py (list matobj) :=
  mat ← loadmat file_path;
  Xtr ← lift (dict_get mat "dataset" .> getitem 0 .> getitem 0 .> getitem 0
              .> getitem 0 .> getitem 0 .> getitem 0 .> full_slice);
  ntr ← lift (shape0 Xtr);
  ytr ← lift (dict_get mat "dataset" .> getitem 0 .> getitem 0 .> getitem 0
              .> getitem 0 .> getitem 0 .> getitem 1 .> full_slice
              .> reshape ntr .> astype_int);
  Xts ← lift (dict_get mat "dataset" .> getitem 0 .> getitem 0 .> getitem 1
              .> getitem 0 .> getitem 0 .> getitem 0 .> full_slice);
  nts ← lift (shape0 Xts);
  yts ← lift (dict_get mat "dataset" .> getitem 0 .> getitem 0 .> getitem 1
              .> getitem 0 .> getitem 0 .> getitem 1 .> full_slice
              .> reshape nts .> astype_int);
  print (loaded_line ntr nts);;
  mret [Xtr; Xts; ytr; yts].

End Loader.

(** [len(o)] *)
Definition py_len (o : matobj) : option nat :=
  match o with
  | Node items => Some (length items)
  | Leaf a => head (nd_shape a)
  end.

(** [o.shape] *)
Definition shape_of (o : matobj) : list nat :=
  match o with
  | Node items => [length items]
  | Leaf a => nd_shape a
  end.

(** *** The extraction as the specification words it

    The four fields are found by position below the key [dataset]; a label
    array is flattened to one dimension and cast to [int]. *)

Fixpoint field_at (path : list nat) (o : matobj) : option matobj :=
  match path with
  | [] => Some o
  | i :: rest =>
      match o with
      | Node items => items !! i ≫= field_at rest
      | Leaf a => sub_array i a ≫= λ b, field_at rest (Leaf b)
      end
  end.

Definition flatten_int (o : matobj) : option matobj :=
  match o with
  | Leaf a =>
      Some (Leaf (NdArray Int64 [prod_shape (nd_shape a)]
                    (wrap_int64 <$> nd_data a)))
  | Node _ => None
  end.

Definition train_images : list nat := [0; 0; 0; 0; 0; 0]%nat.
Definition train_labels : list nat := [0; 0; 0; 0; 0; 1]%nat.
Definition test_images : list nat := [0; 0; 1; 0; 0; 0]%nat.
Definition test_labels : list nat := [0; 0; 1; 0; 0; 1]%nat.

Definition extract_fields (mat : gmap string matobj) : option (list matobj) :=
  ds ← mat !! "dataset";
  Xtr ← field_at train_images ds;
  Xts ← field_at test_images ds;
  ytr ← field_at train_labels ds ≫= flatten_int;
  yts ← field_at test_labels ds ≫= flatten_int;
  Some [Xtr; Xts; ytr; yts].

(** A label array goes with an image array when it is a numeric array of
    one or more dimensions with one element per row of the images. *)
Definition labels_fit (X y : matobj) : Prop :=
  match y with
  | Leaf a => nd_shape a ≠ [] ∧ py_len X = Some (prod_shape (nd_shape a))
  | Node _ => False
  end.

(** An image array has rows: it is not a zero-dimensional array. *)
Definition has_rows (X : matobj) : Prop := is_Some (py_len X).

(** A dictionary as the EMNIST files give it: the four fields are there,
    the image arrays have rows, and each label array fits its images. *)
Definition well_formed (mat : gmap string matobj) : Prop :=
  ∃ ds Xtr Xts ltr lts,
    mat !! "dataset" = Some ds ∧
    field_at train_images ds = Some Xtr ∧
    field_at test_images ds = Some Xts ∧
    field_at train_labels ds = Some ltr ∧
    field_at test_labels ds = Some lts ∧
    has_rows Xtr ∧ has_rows Xts ∧
    labels_fit Xtr ltr ∧ labels_fit Xts lts.

End Emnist.

(** ** The stub cells [# TODO 1] to [# TODO 22] *)

Module Cells.

(** The expressions and statements that occur in the stub cells. *)
#[warnings="-register-all"]
Inductive expr :=
| EInt (z : Z)
| EFloat (q : Q)
| EName (x : string)
| EList (items : list expr)
| ETuple (items : list expr)
| ECall (callee : string) (args : list expr).

Inductive stmt :=
| Comment (text : string)
| Blank
| Assign (target : string) (value : expr)
| FromImport (package name : string).

Definition cell := list stmt.

(** The integers of a list of values, when all of them are integers. *)
Definition ints_of (vs : list val) : option (list Z) :=
  mapM (λ v, match v with VInt z => Some z | _ => None end) vs.

(** Looking up the callee, which comes before the arguments are
    evaluated: [len] is the builtin; [np.array] and [np.zeros] need [np]
    bound ([NameError] otherwise) to the numpy module ([AttributeError]
    otherwise), as the first cell of the notebook binds it. *)
Definition resolve (g : gmap string val) (callee : string) : outcome unit :=
  if String.eqb callee "len" then Ret ()
  else if String.eqb callee "np.array" || String.eqb callee "np.zeros" then
    match g !! "np" with
    | None => Raise (NameError "np")
    | Some (VModule m) =>
        if String.eqb m "numpy" then Ret () else Raise AttributeError
    | Some _ => Raise AttributeError
    end
  else Raise (NameError callee).

(** The call itself, on the values of the arguments. *)
Definition call (callee : string) (args : list val) : outcome val :=
  if String.eqb callee "len" then
    match args with
    | [VList l] => Ret (VInt (Z.of_nat (length l)))
    | _ => Raise TypeError
    end
  else if String.eqb callee "np.array" then
    match args with
    | [VList l] =>
        match ints_of l with
        | Some zs => Ret (VIntArr (NdArray Int64 [length zs] zs))
        | None => Raise TypeError
        end
    | _ => Raise TypeError
    end
  else if String.eqb callee "np.zeros" then
    match args with
    | [VList dims] =>
        match ints_of dims with
        | Some zs =>
            let shape := Z.to_nat <$> zs in
            if forallb (λ z, 0 <=? z)%Z zs
            then Ret (VFloatArr (NdArray Float64 shape
                                   (replicate (Emnist.prod_shape shape) 0%Q)))
            else Raise ValueError
        | None => Raise TypeError
        end
    | _ => Raise TypeError
    end
  else Raise (NameError callee).

(** Evaluation of an expression in the globals [g]; a tuple is given as
    the list of its items. *)
Fixpoint eval (g : gmap string val) (e : expr) : outcome val :=
  let evals := fix evals (es : list expr) : outcome (list val) :=
    match es with
    | [] => Ret []
    | e :: rest =>
        match eval g e with
        | Ret v =>
            match evals rest with
            | Ret vs => Ret (v :: vs)
            | Raise x => Raise x
            end
        | Raise x => Raise x
        end
    end in
  match e with
  | EInt z => Ret (VInt z)
  | EFloat q => Ret (VFloat q)
  | EName x =>
      match g !! x with
      | Some v => Ret v
      | None => Raise (NameError x)
      end
  | EList items | ETuple items =>
      match evals items with
      | Ret vs => Ret (VList vs)
      | Raise x => Raise x
      end
  | ECall callee args =>
      match resolve g callee with
      | Ret _ =>
          match evals args with
          | Ret vs => call callee vs
          | Raise x => Raise x
          end
      | Raise x => Raise x
      end
  end.

Definition exec (s : stmt) : py unit :=
  match s with
  | Comment _ | Blank => mret ()
  | Assign x e => λ w,
      match eval (globals w) e with
      | Ret v => assign x v w
      | Raise err => (Raise err, w)
      end
  | FromImport package name =>
      Download.import_as (package +:+ "." +:+ name) name
  end.

Fixpoint run_cell (c : cell) : py unit :=
  match c with
  | [] => mret ()
  | s :: rest => exec s;; run_cell rest
  end.

(** The code cell marked [# TODO n], line by line. *)
Definition todo (n : nat) : option cell :=
  match n with
  | 1 => Some
      [ Comment "TODO 1:  Load the digit data from emnist-digits.mat";
        Comment "Xtr_dig, Xts_dig, ytr_dig, yts_dig = ..." ]
  | 2 => Some
      [ Comment "TODO 2:  Load the letter data from emnist-letters.mat";
        Comment "Xtr_let, Xts_let, ytr_let, yts_let = ..." ]
  | 3 => Some
      [ Comment "TODO 3:  Plot 8 random samples from the training data of the digits" ]
  | 4 => Some
      [ Comment "TODO 4:  Plot 8 random samples from the training data of the letters" ]
  | 5 => Some
      [ Assign "remove_list" (ECall "np.array" [EList [EInt 9; EInt 12; EInt 15]]);
        Blank;
        Comment "TODO 5:  Create arrays with labels 9, 12 and 15 removed";
        Comment "Xtr_let_rem, ytr_let_rem = ...";
        Comment "Xts_let_rem, yts_let_rem = ..." ]
  | 6 => Some
      [ Comment "Number of training and test digits and letters";
        Assign "ntr_dig" (EInt 5000);
        Assign "ntr_let" (EInt 1000);
        Assign "nts_dig" (EInt 5000);
        Assign "nts_let" (EInt 1000);
        Blank;
        Comment "TODO 6 Create sub-sampled training and test data";
        Comment "Xtr1_dig, ytr1_dig = ...";
        Comment "Xts1_dig, yts1_dig = ...";
        Comment "Xtr1_let, ytr1_let = ...";
        Comment "Xts1_let, yts1_let = ... " ]
  | 7 => Some
      [ Comment "TODO 7:  Create combined letter and digit training and test data";
        Comment "Xtr, ytr = ..";
        Comment "Xts, yts = ..." ]
  | 8 => Some
      [ Comment "TODO 8:  Rescale the data from -1 to 1";
        Comment "Xtr1 = ...";
        Comment "Xts1 = ..." ]
  | 9 => Some
      [ FromImport "sklearn" "svm";
        Blank;
        Comment "TODO 9:  Create a classifier: a support vector classifier";
        Comment "svc = ..." ]
  | 10 => Some
      [ Comment "TODO 10:  Fit the classifier on the training data. " ]
  | 11 => Some
      [ Comment "TODO 11:  Measure error on the test data" ]
  | 12 => Some
      [ Comment "TODO 12:  Print a confusion matrix" ]
  | 13 => Some
      [ Comment "TODO 13:  Print above two error rates" ]
  | 14 => Some
      [ Assign "C_test" (EList [EFloat (1 # 10); EInt 1; EInt 10]);
        Assign "gam_test" (EList [EFloat (1 # 1000); EFloat (1 # 100); EFloat (1 # 10)]);
        Blank;
        Assign "nC" (ECall "len" [EName "C_test"]);
        Assign "ngam" (ECall "len" [EName "gam_test"]);
        Assign "acc" (ECall "np.zeros" [ETuple [EName "nC"; EName "ngam"]]);
        Blank;
        Comment "TODO 14:  Measure and print the accuracy for each C and gamma value.  Store the results in acc" ]
  | 15 => Some
      [ Comment "TODO 15:  Print the accuracy matrix" ]
  | 16 => Some
      [ Comment "TODO 16:  Print the maximum accuracy and the corresponding best C and gamma" ]
  | 17 => Some
      [ Comment "TODO 17:  Create combined trained and test data X and y.";
        Comment "X = ...";
        Comment "y = ..." ]
  | 18 => Some
      [ Comment "TODO 18:  Create a pre-defined test split object ";
        Comment "import sklearn.model_selection";
        Comment "test_fold = ...";
        Comment "ps = sklearn.model_selection.PredefinedSplit(test_fold)" ]
  | 19 => Some
      [ Comment "TODO 19:  Create a GridSearchCV classifier";
        Comment "clf = ..." ]
  | 20 => Some
      [ Comment "TODO 20: Fit the classifier" ]
  | 21 => Some
      [ Comment "TODO 21:  Print the best parameter and score of the classifier" ]
  | 22 => Some
      [ Comment "TODO 22:  Print the mean test score for each parameter value." ]
  | _ => None
  end%nat.

(** The names the stub cells bind by assignment. *)
Definition stub_constants : list string :=
  [ "remove_list"; "ntr_dig"; "ntr_let"; "nts_dig"; "nts_let";
    "C_test"; "gam_test"; "nC"; "ngam"; "acc" ].

(** The functions a stub cell may call to build a constant. *)
Definition constructors : list string := [ "np.array"; "len"; "np.zeros" ].

(** An expression that builds a constant: literals, names, lists and
    tuples of such, and calls of the constructors above. *)
Fixpoint constant_expr (e : expr) : bool :=
  match e with
  | EInt _ | EFloat _ | EName _ => true
  | EList items | ETuple items => forallb constant_expr items
  | ECall callee args =>
      bool_decide (callee ∈ constructors) && forallb constant_expr args
  end.

(** A line that is a comment, blank, or binds one of the named constants. *)
Definition constant_binding (s : stmt) : bool :=
  match s with
  | Comment _ | Blank => true
  | Assign x e => bool_decide (x ∈ stub_constants) && constant_expr e
  | FromImport _ _ => false
  end.

(** The same, with the one import the stub cells contain let through. *)
Definition binding_or_svm_import (s : stmt) : bool :=
  match s with
  | FromImport package name =>
      String.eqb package "sklearn" && String.eqb name "svm"
  | _ => constant_binding s
  end.

(** Two sets of globals agree except on the names in [xs]. *)
Definition same_except (xs : list string) (g g' : gmap string val) : Prop :=
  ∀ x, x ∉ xs → g' !! x = g !! x.

End Cells.

(** ** The data steps the notebook asks for (TODO 5 to TODO 8) *)

Module Lab.

(** A data set: the matrix of pixel values, one row per sample, and the
    vector of labels. *)
Record dataset (A : Type) := Dataset {
  X : list (list A);
  y : list Z
}.
Arguments Dataset {A} _ _.
Arguments X {A} _.
Arguments y {A} _.

(** [len(y) == X.shape[0]] *)
Definition consistent {A} (d : dataset A) : Prop :=
  length (y d) = length (X d).

(** [a[I]] for a list [I] of positions: the entries at these positions, in
    the order of [I]; a position out of range raises [IndexError]. *)
Fixpoint select {A} (I : list nat) (a : list A) : outcome (list A) :=
  match I with
  | [] => Ret []
  | i :: rest =>
      match a !! i with
      | Some x => xs ← select rest a; Ret (x :: xs)
      | None => Raise IndexError
      end
  end.

Definition select_samples {A} (I : list nat) (d : dataset A)
    : outcome (dataset A) :=
  X' ← select I (X d);
  y' ← select I (y d);
  Ret (Dataset X' y').

(** [remove_list = np.array([9,12,15])] *)
Definition remove_list : list Z := [9; 12; 15].

(** The positions [i], counted from [start], whose label is not in
    [removed]. *)
Fixpoint kept_from (start : nat) (removed labels : list Z) : list nat :=
  match labels with
  | [] => []
  | l :: rest =>
      if bool_decide (l ∈ removed) then kept_from (S start) removed rest
      else start :: kept_from (S start) removed rest
  end.

(** Modelled from the spec: the body of the TODO 5 cell, which the notebook
    leaves to the student.  Its instruction reads: create [Xtr_let_rem] and
    [ytr_let_rem] from [Xtr_let] and [ytr_let], where the samples [i] with
    [ytr_let[i] == 9, 12] or [15] are removed. *)
Definition remove_letters {A} (removed : list Z) (d : dataset A)
    : outcome (dataset A) :=
  select_samples (kept_from 0 removed (y d)) d.

(** Modelled from the spec: the body of the TODO 6 cell, which the notebook
    leaves to the student.  Its instruction reads: create [Xtr1_dig] and
    [ytr1_dig] by selecting 5000 random training digit samples from
    [Xtr_dig] and [ytr_dig].  The random choice is the argument [order], an
    arrangement of sample positions, of which the first [n] are taken. *)
Definition subsample {A} (order : list nat) (n : nat) (d : dataset A)
    : outcome (dataset A) :=
  select_samples (take n order) d.

(** The label of the class all letters are lumped into. *)
Definition non_digit : Z := 10.

(** Modelled from the spec: the body of the TODO 7 cell, which the notebook
    leaves to the student.  Its instruction reads: create an array [Xtr] by
    stacking [Xtr1_dig], [Xtr1_let]; create a new label vector [ytr] where
    [ytr[i] = ytr1_dig[i]] for any digit sample and [ytr[i]=10] for any
    letter sample. *)
Definition merge {A} (dig letters : dataset A) : dataset A :=
  Dataset (X dig ++ X letters)
          (y dig ++ replicate (length (X letters)) non_digit).

(** Modelled from the spec: the body of the TODO 8 cell, which the notebook
    leaves to the student.  Its instruction reads: the data takes values
    from 0 to 255, rescale the data from -1 to 1; the specification adds
    that the transform is affine and sends 0 to -1 and 255 to 1. *)
Definition rescale_value (x : Q) : Q := (2 # 255) * x - 1.

Definition rescale_pixel (p : Z) : Q := rescale_value (inject_Z p).

Definition rescale (d : dataset Z) : dataset Q :=
  Dataset (map (map rescale_pixel) (X d)) (y d).

(** Modelled from the spec: the two classes of the "digit vs. non-digit"
    detection problem. *)
Inductive detection := Digit | NonDigit.

(** Modelled from the spec: the class a label of the merged vector stands
    for.  The label of the letters is the non-digit class, every other
    label a digit. *)
Definition detection_class (label : Z) : detection :=
  if bool_decide (label = non_digit) then NonDigit else Digit.

(** A sample of a merged data set is a digit sample when it comes before
    the letter samples. *)
Definition is_digit_sample {A} (dig : dataset A) (i : nat) : Prop :=
  (i < length (X dig))%nat.

(** Labels of digits: 0 to 9. *)
Definition digit_label (l : Z) : Prop := (0 ≤ l ≤ 9)%Z.

End Lab.

(** ** Concrete inputs used in the examples below *)

Module Examples.

Import Download Emnist Lab.

(** A response that declares five bytes and delivers three. *)
Definition short_response : response :=
  Response (HInt 5) [[Byte.x00; Byte.x01]; [Byte.x02]] false.

(** A response without a [content-length] header. *)
Definition unsized_response : response :=
  Response HAbsent [[Byte.x00; Byte.x01]; [Byte.x02]] false.

Definition server (r : response) : string → option response := λ _, Some r.

Definition no_archive : list Byte.byte → option (list (string * node)) :=
  λ _, None.

(** A fresh kernel in an empty directory. *)
Definition fresh : world := World ∅ ∅ [].

(** The archive is there already. *)
Definition with_zip : world :=
  World (<["matlab.zip" := File [Byte.x50; Byte.x4b]]> ∅) ∅ [].

(** The directory [matlab] is there, with the digits but not the letters. *)
Definition half_unpacked : world :=
  World (<["matlab" := Dir]> (<["matlab/emnist-digits.mat" := File []]> ∅)) ∅ [].

(** A small file in the layout of the EMNIST files: two training images
    and one test image of three pixels each. *)
Definition split_of (images labels : ndarray Z) : matobj :=
  Node [Node [Node [Leaf images; Leaf labels]]].

Definition toy_mat : gmap string matobj :=
  <["dataset" :=
      Node [Node [Node [
        split_of (NdArray UInt8 [2; 3]%nat [0; 128; 255; 7; 8; 9])
                 (NdArray UInt8 [2; 1]%nat [4; 7]);
        split_of (NdArray UInt8 [1; 3]%nat [1; 2; 3])
                 (NdArray UInt8 [1; 1]%nat [5]) ]]]]> ∅.

Definition toy_loadmat : string → py (gmap string matobj) :=
  λ _, mret toy_mat.

(** The same layout with three training labels for two training images. *)
Definition mismatched_mat : gmap string matobj :=
  <["dataset" :=
      Node [Node [Node [
        split_of (NdArray UInt8 [2; 3]%nat [0; 128; 255; 7; 8; 9])
                 (NdArray UInt8 [3; 1]%nat [4; 7; 1]);
        split_of (NdArray UInt8 [1; 3]%nat [1; 2; 3])
                 (NdArray UInt8 [1; 1]%nat [5]) ]]]]> ∅.

(** An archive decoder that finds the directory and the two files in any
    archive. *)
Definition emnist_archive : list Byte.byte → option (list (string * node)) :=
  λ _, Some [ ("matlab", Dir);
              ("matlab/emnist-digits.mat", File [Byte.x01]);
              ("matlab/emnist-letters.mat", File [Byte.x02]) ].

(** Four letter samples, three of them with a label to remove. *)
Definition four_letters : dataset Z :=
  Dataset [[10]; [20]; [30]; [40]] [9; 3; 12; 15].

(** One sample of every digit, and one letter. *)
Definition ten_digits : dataset Z :=
  Dataset ((λ l, [l]) <$> seqZ 0 10) (seqZ 0 10).

Definition one_letter : dataset Z := Dataset [[0]] [3].

End Examples.

(** ** The rest of the download cell, step by step *)

Module Unpack.

Import Download.

Section Archive.

Variable unzip : list Byte.byte → option (list (string * node)).

(** The statements of [driver] that follow the call of [download_file]. *)
Definition unpack (dst_fn : string) : py unit :=
  print ("Unzipping " +:+ dst_fn +:+ "...");;
  members ← zipfile_open unzip dst_fn;
  assign "zip_ref" (VObject "ZipFile");;
  extractall members;;
  print "Unzip completed".

End Archive.

(** The files after the members of an archive have been written, one after
    the other. *)
Definition extracted (members : list (string * node)) (fs : gmap string node)
    : gmap string node :=
  foldl (λ acc m, extract_member m.1 m.2 acc) fs members.

(** The globals the download branch of [driver] binds before the call. *)
Definition download_globals (g : gmap string val) : gmap string val :=
  <["dst_fn" := VStr "matlab.zip"]>
    (<["src_url" := VStr zip_url]>
       (<["files_exists" := VBool false]>
          (<["letters_fn" := VStr letters_fn]>
             (<["digits_fn" := VStr digits_fn]>
                (<["matlab_dir" := VStr matlab_dir]> g))))).

(** The globals [driver] binds before it tests for the directory. *)
Definition name_globals (g : gmap string val) : gmap string val :=
  <["letters_fn" := VStr letters_fn]>
    (<["digits_fn" := VStr digits_fn]>
       (<["matlab_dir" := VStr matlab_dir]> g)).

End Unpack.

(** ** [plt_digit] *)

Module Plot.

Import Emnist.

(** The axes pyplot draws on: the images shown so far, each with its colour
    map, the tick positions once they have been set, and the title. *)
Record axes := Axes {
  images : list (ndarray Z * string);
  xticks : option (list Z);
  yticks : option (list Z);
  title : option string
}.

(** A computation on the axes, which returns or raises. *)
Definition plot (A : Type) : Type := axes → outcome A * axes.

#[global] Instance plot_ret : MRet plot := λ A a ax, (Ret a, ax).
#[global] Instance plot_bind : MBind plot := λ A B f m ax,
  match m ax with
  | (Ret a, ax') => f a ax'
  | (Raise e, ax') => (Raise e, ax')
  end.

Definition eval {A} (o : outcome A) : plot A := λ ax, (o, ax).

(** [x.reshape(shape)]: the same elements under another shape with as many
    elements; otherwise a [ValueError] *)
Definition reshape_to (shape : list nat) (x : ndarray Z) : outcome (ndarray Z) :=
  if decide (prod_shape (nd_shape x) = prod_shape shape)
  then Ret (NdArray (nd_dtype x) shape (nd_data x))
  else Raise ValueError.

(** [a.T] of a two-dimensional array: entry [(i, j)] is entry [(j, i)] of
    [a].  Arrays of one dimension or none are their own transpose; the
    notebook transposes no array of more dimensions. *)
Definition transpose (a : ndarray Z) : ndarray Z :=
  match nd_shape a with
  | [r; c] =>
      NdArray (nd_dtype a) [c; r]
        (i ← seq 0 c; j ← seq 0 r; [nth (j * c + i) (nd_data a) 0])
  | _ => a
  end.

(** [a[i, j]] of a two-dimensional array *)
Definition item2 (a : ndarray Z) (i j : nat) : option Z :=
  match nd_shape a with
  | [r; c] =>
      if decide (i < r ∧ j < c)%nat then nd_data a !! (i * c + j)%nat else None
  | _ => None
  end.

(** [plt.imshow(img, cmap=cmap)] *)
Definition imshow (img : ndarray Z) (cmap : string) : plot unit := λ ax,
  (Ret (), Axes (images ax ++ [(img, cmap)]) (xticks ax) (yticks ax) (title ax)).

(** [plt.xticks(ticks)], [plt.yticks(ticks)] and [plt.title(s)] *)
Definition set_xticks (ticks : list Z) : plot unit := λ ax,
  (Ret (), Axes (images ax) (Some ticks) (yticks ax) (title ax)).

Definition set_yticks (ticks : list Z) : plot unit := λ ax,
  (Ret (), Axes (images ax) (xticks ax) (Some ticks) (title ax)).

Definition set_title (s : string) : plot unit := λ ax,
  (Ret (), Axes (images ax) (xticks ax) (yticks ax) (Some s)).

(** [plt_digit(x, y)]; [y] is an integer label, or [None]. *)
Definition plt_digit (x : ndarray Z) (y : option Z) : plot unit :=
  let nrow := 28%nat in
  let ncol := 28%nat in
  xsq ← eval (reshape_to [nrow; ncol] x);
  imshow (transpose xsq) "Greys_r";;
  set_xticks [];;
  set_yticks [];;
  match y with
  | Some label => set_title (pretty label)
  | None => mret ()
  end.

End Plot.

(** ** The first cell, and cells run one after the other *)

Module Setup.

Import Download Cells.

(** The first code cell: the imports.  [%matplotlib inline] is a setting of
    the notebook's display and binds nothing. *)
Definition import_cell : py unit :=
  import_as "numpy" "np";;
  import_as "matplotlib.pyplot" "plt";;
  import_as "sklearn.linear_model" "linear_model";;
  import_as "sklearn.preprocessing" "preprocessing".

(** Cells run one after the other, as long as none raises. *)
Fixpoint run_cells (cs : list cell) : py unit :=
  match cs with
  | [] => mret ()
  | c :: rest => run_cell c;; run_cells rest
  end.

(** A run from [w] to [w'] that only adds to the trace, and neither prints
    nor sends a request. *)
Definition quiet (w w' : world) : Prop :=
  ∃ evs, trace w' = (trace w ++ evs)%list ∧ printed evs = [] ∧ requested evs = [].

(** A cell that is one of the stub cells. *)
Definition is_stub (c : cell) : Prop := ∃ n, todo n = Some c.

End Setup.

(** ** Further concrete inputs *)

Module MoreExamples.

Import Download Emnist Cells Plot.

(** A server that cannot be reached. *)
Definition unreachable : string → option response := λ _, None.

(** A response whose [content-length] is not a number. *)
Definition malformed_response : response :=
  Response HMalformed [[Byte.x00]] false.


(** The directory and both files are there. *)
Definition unpacked : world :=
  World (<["matlab" := Dir]>
           (<["matlab/emnist-digits.mat" := File []]>
              (<["matlab/emnist-letters.mat" := File []]> ∅))) ∅ [].

(** The letters are missing, and an earlier run has left [files_exists]. *)
Definition stale (flag : bool) : world :=
  World (<["matlab" := Dir]> (<["matlab/emnist-digits.mat" := File []]> ∅))
        (<["files_exists" := VBool flag]> ∅) [].

(** A dictionary without the key [dataset]. *)
Definition empty_mat : gmap string matobj := ∅.

(** A flat image whose pixel [k] has the value [k]. *)
Definition ramp : ndarray Z := NdArray UInt8 [784%nat] (seqZ 0 784).

Definition three_pixels : ndarray Z := NdArray UInt8 [3%nat] [1; 2; 3].

Definition blank_axes : axes := Axes [] None None None.

(** Three of the stub cells, one of them twice. *)
Definition some_cells : list cell :=
  [ default [] (todo 14); default [] (todo 5); default [] (todo 9);
    default [] (todo 14) ].

Definition numpy_bound : world := World ∅ (<["np" := VModule "numpy"]> ∅) [].

End MoreExamples.

(** * Properties *)

Local Open Scope string_scope.
Local Open Scope Z_scope.
Local Open Scope list_scope.

Import Download Emnist Cells Lab.

(** ** The code at concrete inputs *)

Example os_path_join_digits :
  os_path_join "matlab" "emnist-digits.mat" = "matlab/emnist-digits.mat".
Proof. reflexivity. Qed.

Example download_short :
  download_file (Examples.server Examples.short_response) "u" "d" Examples.fresh =
    (Ret (),
     World (<["d" := File [Byte.x00; Byte.x01; Byte.x02]]> ∅) ∅
       [ EvPrint "Downloading d"; EvGet "u"; EvOpenW "d"; EvProgress 0;
         EvTick; EvWrite "d" 2; EvTick; EvWrite "d" 1;
         EvPrint "ERROR, something went wrong" ]).
Proof. vm_compute. reflexivity. Qed.

Example driver_from_scratch :
  let '(o, w) := driver (Examples.server Examples.unsized_response)
                   Examples.emnist_archive Examples.fresh in
  o = Ret () ∧
  printed (trace w) = [ "Downloading matlab.zip"; "Unzipping matlab.zip...";
                        "Unzip completed" ] ∧
  is_Some (files w !! digits_fn) ∧ is_Some (files w !! letters_fn) ∧
  globals w !! "files_exists" = Some (VBool false).
Proof. vm_compute. repeat split; eauto. Qed.

Example driver_nothing_to_do :
  let '(o, w) := driver (Examples.server Examples.unsized_response)
                   Examples.emnist_archive
                   (driver (Examples.server Examples.unsized_response)
                      Examples.emnist_archive Examples.fresh).2 in
  o = Ret () ∧
  printed (trace w) = [ "Downloading matlab.zip"; "Unzipping matlab.zip...";
                        "Unzip completed"; "Files already downloaded" ] ∧
  globals w !! "files_exists" = Some (VBool true).
Proof. vm_compute. repeat split; eauto. Qed.

Example load_emnist_toy :
  load_emnist Examples.toy_loadmat "emnist-digits.mat" Examples.fresh =
    (Ret [ Leaf (NdArray UInt8 [2; 3]%nat [0; 128; 255; 7; 8; 9]);
           Leaf (NdArray UInt8 [1; 3]%nat [1; 2; 3]);
           Leaf (NdArray Int64 [2]%nat [4; 7]);
           Leaf (NdArray Int64 [1]%nat [5]) ],
     World ∅ ∅ [EvPrint "2 training samples, 1 test samples loaded"]).
Proof. vm_compute. reflexivity. Qed.

(** Three labels for two images: [reshape] refuses, where flattening alone
    would not. *)
Example load_emnist_mismatched :
  load_emnist (λ _, mret Examples.mismatched_mat) "emnist-digits.mat" Examples.fresh =
    (Raise ValueError, Examples.fresh) ∧
  is_Some (extract_fields Examples.mismatched_mat).
Proof. split; [vm_compute; reflexivity | vm_compute; eauto]. Qed.

Example todo14_run :
  (run_cell (default [] (todo 14))
     (World ∅ (<["np" := VModule "numpy"]> ∅) [])).1 = Ret () ∧
  globals (run_cell (default [] (todo 14))
             (World ∅ (<["np" := VModule "numpy"]> ∅) [])).2 !! "acc" =
    Some (VFloatArr (NdArray Float64 [3; 3]%nat (replicate 9 0%Q))).
Proof. split; vm_compute; reflexivity. Qed.

Example todo5_without_numpy :
  run_cell (default [] (todo 5)) Examples.fresh = (Raise (NameError "np"), Examples.fresh).
Proof. vm_compute. reflexivity. Qed.

Example todo5_np_not_a_module :
  run_cell (default [] (todo 5)) (World ∅ (<["np" := VInt 5]> ∅) []) =
    (Raise AttributeError, World ∅ (<["np" := VInt 5]> ∅) []).
Proof. vm_compute. reflexivity. Qed.

(** [bool(np.array([0]))] is false, and an array of two elements has no
    truth value. *)
Example truthy_arrays :
  truthy (VIntArr (NdArray Int64 [1]%nat [0])) = Ret false ∧
  truthy (VIntArr (NdArray Int64 [1]%nat [3])) = Ret true ∧
  truthy (VIntArr (NdArray Int64 [2]%nat [0; 1])) = Raise ValueError.
Proof. repeat split. Qed.

Example ancestors_of_paths :
  ancestors "matlab/emnist-digits.mat" = ["matlab"] ∧
  ancestors "a/b/c" = ["a"; "a/b"] ∧
  ancestors "matlab.zip" = [] ∧
  parent_dir "a/b/c" = Some "a/b".
Proof. repeat split. Qed.

(** Opening a file below a directory that is missing fails, after the
    request has been sent. *)
Example download_below_missing_directory :
  download_file (Examples.server Examples.short_response) "u" "nodir/d" Examples.fresh =
    (Raise (FileNotFoundError "nodir/d"),
     World ∅ ∅ [EvPrint "Downloading nodir/d"; EvGet "u"]).
Proof. vm_compute. reflexivity. Qed.

(** An archive without an entry for the directory: the directory is
    created with its first member. *)
Example extract_creates_directory :
  Unpack.extracted [("matlab/emnist-digits.mat", File [Byte.x01])] ∅ !! "matlab"
    = Some Dir.
Proof. vm_compute. reflexivity. Qed.

Example wrap_int64_edges :
  wrap_int64 5 = 5 ∧ wrap_int64 (-1) = -1 ∧
  wrap_int64 (2 ^ 63) = - 2 ^ 63 ∧ wrap_int64 (2 ^ 64 + 7) = 7.
Proof. repeat split. Qed.

Example remove_letters_four :
  remove_letters remove_list Examples.four_letters = Ret (Dataset [[20]] [3]).
Proof. vm_compute. reflexivity. Qed.

Example subsample_four :
  subsample [2; 0; 3; 1]%nat 2 Examples.four_letters =
    Ret (Dataset [[30]; [10]] [12; 9]).
Proof. vm_compute. reflexivity. Qed.

Example merge_four :
  y (merge (Dataset [[1]; [2]] [7; 0]) Examples.four_letters) = [7; 0; 10; 10; 10; 10].
Proof. reflexivity. Qed.

(** ** Running the monad *)


Lemma bind_run {A B} (m : py A) (f : A → py B) (w : world) :
  (m ≫= f) w = match m w with
               | (Ret a, w') => f a w'
               | (Raise e, w') => (Raise e, w')
               end.
Proof. reflexivity. Qed.

Lemma append_to_app (c d : list Byte.byte) (n : node) :
  append_to d (append_to c n) = append_to (c ++ d) n.
Proof. destruct n as [x|]; simpl; [by rewrite <- app_assoc | done]. Qed.

Lemma write_blocks_run dst_fn blocks : ∀ wrote w,
  write_blocks dst_fn blocks wrote w =
    (Ret (wrote + Z.of_nat (length (concat blocks))),
     World (alter (append_to (concat blocks)) dst_fn (files w)) (globals w)
           (trace w ++ block_events dst_fn blocks)).
Proof.
  induction blocks as [|data rest IH]; intros wrote w.
  - simpl. destruct w as [fs g t]; simpl. rewrite Z.add_0_r, app_nil_r.
    f_equal. f_equal. symmetry. apply alter_id. by intros [c|] _; simpl; rewrite ?app_nil_r.
  - cbn [write_blocks]. repeat (rewrite bind_run; cbn [emit file_write files globals trace]).
    rewrite IH. cbn [files globals trace].
    rewrite alter_alter_eq. f_equal.
    + f_equal. rewrite concat_cons, length_app. lia.
    + f_equal.
      * apply alter_ext. intros n _. apply append_to_app.
      * unfold block_events. cbn. by rewrite <- !app_assoc.
Qed.

Lemma ret_run {A} (a : A) (w : world) : (mret a : py A) w = (Ret a, w).
Proof. reflexivity. Qed.

Lemma raise_run {A} (e : exn) (w : world) : (raise e : py A) w = (Raise e, w).
Proof. reflexivity. Qed.

Lemma lift_run {A} (o : outcome A) (w : world) : lift o w = (o, w).
Proof. reflexivity. Qed.

Ltac py_run :=
  repeat (first [rewrite bind_run | rewrite ret_run | rewrite raise_run];
          unfold print, emit, os_path_exists, file_write, assign;
          cbn [files globals trace]).

Lemma download_file_existing_run http src_url dst_fn w :
  is_Some (files w !! dst_fn) →
  download_file http src_url dst_fn w =
    (Ret (), World (files w) (globals w)
               (trace w ++ [EvPrint ("File " +:+ dst_fn +:+ " already exists")])).
Proof.
  intros Hex. unfold download_file. py_run.
  by rewrite bool_decide_eq_true_2.
Qed.


Lemma download_file_fresh_run http src_url dst_fn w r total :
  files w !! dst_fn = None →
  can_create (files w) dst_fn →
  http src_url = Some r →
  declared_size r = Some total →
  download_file http src_url dst_fn w =
    let w1 := World (<[dst_fn := File (delivered r)]> (files w)) (globals w)
                    (trace w ++ transfer_events src_url dst_fn total r) in
    if broken r then (Raise ChunkedEncodingError, w1)
    else if negb (total =? 0)%Z && negb (wrote_of r =? total)%Z
    then (Ret (), World (files w1) (globals w1) (trace w1 ++ [EvPrint error_line]))
    else (Ret (), w1).
Proof.
  intros Hno Hcan Hr Hsz. unfold download_file. py_run.
  rewrite bool_decide_eq_false_2 by (rewrite Hno; by intros [? ?]).
  unfold requests_get. py_run. rewrite Hr. py_run.
  unfold declared_size in Hsz. unfold total_size_of.
  unfold can_create in Hcan.
  destruct (content_length r); simplify_eq; py_run; unfold open_wb;
    cbn [files globals trace]; rewrite Hcan, Hno; py_run;
  (unfold stream_to; py_run; rewrite write_blocks_run; cbn [files globals trace];
   rewrite alter_insert_eq; cbn [append_to app]; rewrite Z.add_0_l;
   unfold transfer_events, wrote_of, delivered;
   rewrite <- !app_assoc; cbn [app];
   destruct (broken r); py_run; [done|];
   match goal with |- context [negb ?a && ?b] => destruct (negb a && b) end; [|done];
   unfold print, emit; cbn [files globals trace]; by rewrite <- app_assoc).
Qed.

Lemma download_file_blocked_run http src_url dst_fn w r total e :
  files w !! dst_fn = None →
  parent_check (files w) dst_fn = Raise e →
  http src_url = Some r →
  declared_size r = Some total →
  download_file http src_url dst_fn w =
    (Raise e,
     World (files w) (globals w)
           (trace w ++ [EvPrint ("Downloading " +:+ dst_fn); EvGet src_url])).
Proof.
  intros Hno Hpar Hr Hsz. unfold download_file. py_run.
  rewrite bool_decide_eq_false_2 by (rewrite Hno; by intros [? ?]).
  unfold requests_get. py_run. rewrite Hr. py_run.
  unfold declared_size in Hsz. unfold total_size_of.
  destruct (content_length r); simplify_eq; py_run; unfold open_wb;
    cbn [files globals trace]; rewrite Hpar; by rewrite <- app_assoc.
Qed.

Lemma new_events_app w w' evs :
  trace w' = trace w ++ evs → new_events w w' = evs.
Proof. intros Ht. unfold new_events. by rewrite Ht, drop_app_length. Qed.

Lemma printed_app t1 t2 : printed (t1 ++ t2) = printed t1 ++ printed t2.
Proof. apply omap_app. Qed.

Lemma requested_app t1 t2 : requested (t1 ++ t2) = requested t1 ++ requested t2.
Proof. apply omap_app. Qed.


Lemma printed_block_events dst_fn blocks : printed (block_events dst_fn blocks) = [].
Proof. induction blocks as [|b bs IH]; [done|]. exact IH. Qed.




(** C8.  If [dst_fn] exists already, [download_file] returns at once: it
    prints one line, sends no request, opens no file for writing, and leaves
    the files and the globals as they are.  A second call with the same
    arguments does the same, so the files stay unchanged again. *)
Theorem download_file_existing_noop http src_url dst_fn w :
  is_Some (files w !! dst_fn) →
  ∃ w1 w2,
    download_file http src_url dst_fn w = (Ret (), w1) ∧
    new_events w w1 = [EvPrint ("File " +:+ dst_fn +:+ " already exists")] ∧
    requested (new_events w w1) = [] ∧ opened_w (new_events w w1) = [] ∧
    files w1 = files w ∧ globals w1 = globals w ∧
    download_file http src_url dst_fn w1 = (Ret (), w2) ∧
    new_events w1 w2 = [EvPrint ("File " +:+ dst_fn +:+ " already exists")] ∧
    files w2 = files w ∧ globals w2 = globals w.
Proof.
  intros Hex. eexists _, _.
  rewrite (download_file_existing_run _ _ _ w Hex).
  split; [reflexivity|].
  rewrite (new_events_app w _ [EvPrint ("File " +:+ dst_fn +:+ " already exists")]) by done.
  do 5 (split; [reflexivity|]).
  rewrite download_file_existing_run by exact Hex. cbn [files globals trace].
  split; [reflexivity|].
  split; [by apply new_events_app|]. done.
Qed.

(** C4.  When the response has no [content-length] header, or declares 0,
    so that [total_size] is 0, [download_file] never prints the error line,
    whatever blocks arrive and whether or not the file existed. *)
Theorem no_declared_length_no_error http src_url dst_fn w r :
  http src_url = Some r →
  declared_size r = Some 0 →
  error_line ∉ printed (new_events w (download_file http src_url dst_fn w).2).
Proof.
  intros Hr Hsz. destruct (files w !! dst_fn) as [n|] eqn:Hf.
  - rewrite download_file_existing_run by (by rewrite Hf). cbn [snd].
    erewrite new_events_app by (cbn [trace]; reflexivity).
    cbn. rewrite list_elem_of_singleton. discriminate.
  - destruct (parent_check (files w) dst_fn) as [[]|e] eqn:Hpar.
    + rewrite (download_file_fresh_run _ _ _ _ _ _ Hf Hpar Hr Hsz). cbn zeta.
      cbn [Z.eqb negb andb].
      assert (Hp : printed (transfer_events src_url dst_fn 0 r)
                   = ["Downloading " +:+ dst_fn]).
      { unfold transfer_events. by rewrite printed_app, printed_block_events. }
      destruct (broken r); cbn [snd];
        (erewrite new_events_app by (cbn [trace]; reflexivity));
        rewrite Hp, list_elem_of_singleton; discriminate.
    + rewrite (download_file_blocked_run _ _ _ _ _ _ _ Hf Hpar Hr Hsz). cbn [snd].
      erewrite new_events_app by (cbn [trace]; reflexivity).
      cbn. rewrite list_elem_of_singleton. discriminate.
Qed.





Lemma var_unbound x w :
  globals w !! x = None → var x w = (Raise (NameError x), w).
Proof. intros H. unfold var. by rewrite H. Qed.

Lemma imports_run http unzip w :
  download_cell http unzip w =
    driver http unzip
      (World (files w)
         (<["download_file" := VFunc "download_file"]>
            (<["zipfile" := VModule "zipfile"]>
               (<["os" := VModule "os"]>
                  (<["requests" := VModule "requests"]>
                     (<["tqdm" := VModule "tqdm.tqdm"]> (globals w))))))
         (trace w ++ [EvImport "tqdm.tqdm"; EvImport "requests";
                      EvImport "os"; EvImport "zipfile"])).
Proof.
  unfold download_cell, import_as. py_run. by rewrite <- !app_assoc.
Qed.

(** C2.  In a fresh kernel, when the directory [matlab] exists and one of
    the two [.mat] files is missing, no branch of the cell assigns
    [files_exists]: reading it raises [NameError], nothing is downloaded and
    the files are left as they were. *)
Theorem driver_cell_name_error http unzip w :
  is_Some (files w !! "matlab") →
  files w !! "matlab/emnist-digits.mat" = None
    ∨ files w !! "matlab/emnist-letters.mat" = None →
  globals w !! "files_exists" = None →
  ∃ w', download_cell http unzip w = (Raise (NameError "files_exists"), w') ∧
        files w' = files w ∧
        requested (new_events w w') = [] ∧
        printed (new_events w w') = [].
Proof.
  intros Hdir Hmiss Hfresh. rewrite imports_run. unfold driver. py_run.
  rewrite (bool_decide_eq_true_2 _ Hdir). py_run.
  change digits_fn with "matlab/emnist-digits.mat".
  change letters_fn with "matlab/emnist-letters.mat".
  destruct (bool_decide (is_Some (files w !! "matlab/emnist-digits.mat"))) eqn:Hd;
    py_run; cbn [files globals trace];
    [ destruct (bool_decide (is_Some (files w !! "matlab/emnist-letters.mat"))) eqn:Hl;
      py_run;
      [ exfalso; apply bool_decide_eq_true_1 in Hd, Hl;
        destruct Hd as [? Hd], Hl as [? Hl], Hmiss; congruence | ]
    | ];
    rewrite var_unbound by (cbn [globals]; rewrite !lookup_insert_ne by done; exact Hfresh);
    (eexists; split; [reflexivity|]); cbn [files];
    (split; [reflexivity|]);
    by erewrite new_events_app by (cbn [trace]; reflexivity).
Qed.

(** ** [load_emnist] *)



Lemma field_at_cons i rest o :
  field_at (i :: rest) o = to_option (getitem i o) ≫= field_at rest.
Proof.
  destruct o as [a|items]; cbn [field_at getitem].
  - by destruct (sub_array i a).
  - by destruct (items !! i).
Qed.

Lemma index_chain path : ∀ acc : outcome matobj,
  to_option (foldl (λ m i, m ≫= getitem i) acc path) = to_option acc ≫= field_at path.
Proof.
  induction path as [|i rest IH]; intros acc.
  - cbn. by destruct acc.
  - cbn [foldl]. rewrite IH. destruct acc as [o|e]; [|done].
    cbn [mbind outcome_bind to_option option_bind]. by rewrite field_at_cons.
Qed.

Lemma index_from_dataset mat path x :
  foldl (λ m i, m ≫= getitem i) (dict_get mat "dataset") path = Ret x ↔
  ∃ ds, mat !! "dataset" = Some ds ∧ field_at path ds = Some x.
Proof.
  pose proof (index_chain path (dict_get mat "dataset")) as H.
  unfold dict_get in *. destruct (mat !! "dataset") as [ds|]; cbn in H.
  - split.
    + intros Hx. rewrite Hx in H. cbn in H. eauto.
    + intros (ds' & [= <-] & Hf). rewrite Hf in H.
      destruct (foldl _ _ _); cbn in H; congruence.
  - split.
    + intros Hx. rewrite Hx in H. done.
    + by intros (ds' & ? & _).
Qed.

Lemma bind_ret_inv {A B} (o : outcome A) (f : A → outcome B) b :
  o ≫= f = Ret b → ∃ a, o = Ret a ∧ f a = Ret b.
Proof. destruct o as [a|e]; [eauto | discriminate]. Qed.

Lemma full_slice_ret o x : full_slice o = Ret x → x = o ∧ has_rows o.
Proof.
  destruct o as [a|items]; cbn.
  - unfold has_rows. cbn. destruct (nd_shape a); [discriminate|].
    intros [= <-]. split; [done|]. by eexists.
  - intros [= <-]. split; [done|]. by eexists.
Qed.

Lemma shape0_ret o n : shape0 o = Ret n ↔ py_len o = Some n.
Proof.
  destruct o as [a|items]; cbn.
  - destruct (nd_shape a); cbn; split; intros; by simplify_eq.
  - split; intros; by simplify_eq.
Qed.

(** The label expression [l[:].reshape(n).astype(int)] returns exactly
    when [l] is a sliceable numeric array of [n] elements. *)
Lemma labels_ret l n yv :
  (full_slice l ≫= reshape n) ≫= astype_int = Ret yv ↔
  ∃ a, l = Leaf a ∧ nd_shape a ≠ [] ∧ prod_shape (nd_shape a) = n ∧
       yv = Leaf (NdArray Int64 [n] (wrap_int64 <$> nd_data a)).
Proof.
  destruct l as [a|items]; cbn.
  - destruct (nd_shape a) as [|d ds] eqn:Hs; cbn.
    + split; [discriminate|]. intros (a' & [= <-] & Hne & _). by rewrite Hs in Hne.
    + rewrite Hs. destruct (decide (prod_shape (d :: ds) = n)) as [Hn|Hn]; cbn.
      * split.
        -- intros [= <-]. exists a. by rewrite Hs.
        -- intros (a' & [= <-] & _ & _ & ->). done.
      * split; [discriminate|]. intros (a' & [= <-] & _ & Hn' & _).
        rewrite Hs in Hn'. done.
  - destruct (decide (length items = n)); cbn; (split; [discriminate|]);
      by intros (a & ? & _).
Qed.

Local Abbreviation index_path mat path :=
  (foldl (λ m i, m ≫= getitem i) (dict_get mat "dataset") path).

Lemma images_expr mat path x :
  index_path mat path ≫= full_slice = Ret x ↔
  ∃ ds, mat !! "dataset" = Some ds ∧ field_at path ds = Some x ∧ has_rows x.
Proof.
  split.
  - intros (o & Ho & Hs)%bind_ret_inv. apply full_slice_ret in Hs as [-> Hrows].
    apply index_from_dataset in Ho as (ds & ? & ?). eauto.
  - intros (ds & Hds & Hf & Hrows).
    assert (index_path mat path = Ret x) as -> by (apply index_from_dataset; eauto).
    cbn. destruct x as [a|items]; [|done]. destruct Hrows as [n Hn]. cbn in Hn.
    cbn. by destruct (nd_shape a).
Qed.

Lemma labels_expr mat path n yv :
  ((index_path mat path ≫= full_slice) ≫= reshape n) ≫= astype_int = Ret yv ↔
  ∃ ds a, mat !! "dataset" = Some ds ∧ field_at path ds = Some (Leaf a) ∧
          nd_shape a ≠ [] ∧ prod_shape (nd_shape a) = n ∧
          yv = Leaf (NdArray Int64 [n] (wrap_int64 <$> nd_data a)).
Proof.
  split.
  - destruct (index_path mat path) as [l|e] eqn:Hl; [|discriminate].
    intros (a & -> & Hne & Hn & ->)%labels_ret.
    apply index_from_dataset in Hl as (ds & ? & ?). eauto 10.
  - intros (ds & a & Hds & Hf & Hne & Hn & ->).
    assert (index_path mat path = Ret (Leaf a)) as -> by (apply index_from_dataset; eauto).
    apply labels_ret. eauto 10.
Qed.

Ltac next_step H :=
  rewrite bind_run, lift_run in H; cbn beta iota in H;
  match type of H with
  | context [match ?e with Ret _ => _ | Raise _ => _ end] =>
      let E := fresh "E" in destruct e eqn:E; [|discriminate H]
  end.

Lemma load_emnist_ret loadmat file_path w mat w1 r w' :
  loadmat file_path w = (Ret mat, w1) →
  load_emnist loadmat file_path w = (Ret r, w') ↔
  ∃ ds Xtr Xts atr ats ntr nts,
    mat !! "dataset" = Some ds ∧
    field_at train_images ds = Some Xtr ∧
    field_at test_images ds = Some Xts ∧
    field_at train_labels ds = Some (Leaf atr) ∧
    field_at test_labels ds = Some (Leaf ats) ∧
    py_len Xtr = Some ntr ∧ py_len Xts = Some nts ∧
    nd_shape atr ≠ [] ∧ prod_shape (nd_shape atr) = ntr ∧
    nd_shape ats ≠ [] ∧ prod_shape (nd_shape ats) = nts ∧
    r = [Xtr; Xts; Leaf (NdArray Int64 [ntr] (wrap_int64 <$> nd_data atr));
         Leaf (NdArray Int64 [nts] (wrap_int64 <$> nd_data ats))] ∧
    w' = World (files w1) (globals w1) (trace w1 ++ [EvPrint (loaded_line ntr nts)]).
Proof.
  intros Hload. unfold load_emnist. rewrite bind_run, Hload. split.
  - intros H. do 6 next_step H.
    apply (images_expr mat train_images) in E as (ds & Hds & Hf1 & _).
    apply shape0_ret in E0.
    apply (labels_expr mat train_labels) in E1 as (ds1 & atr & Hds1 & Hf2 & Hne1 & Hn1 & ->).
    apply (images_expr mat test_images) in E2 as (ds2 & Hds2 & Hf3 & _).
    apply shape0_ret in E3.
    apply (labels_expr mat test_labels) in E4 as (ds3 & ats & Hds3 & Hf4 & Hne2 & Hn2 & ->).
    simplify_eq. rewrite bind_run in H. unfold print, emit in H.
    rewrite ret_run in H. simplify_eq. eauto 20.
  - intros (ds & Xtr & Xts & atr & ats & ntr & nts & Hds & Hf1 & Hf3 & Hf2 & Hf4 &
            Hl1 & Hl2 & Hne1 & Hn1 & Hne2 & Hn2 & -> & ->).
    assert (E1 : index_path mat train_images ≫= full_slice = Ret Xtr)
      by (apply images_expr; exists ds; unfold has_rows; rewrite Hl1; eauto).
    assert (E2 : index_path mat test_images ≫= full_slice = Ret Xts)
      by (apply images_expr; exists ds; unfold has_rows; rewrite Hl2; eauto).
    pose proof (proj2 (labels_expr mat train_labels ntr _)
                  (ex_intro _ ds (ex_intro _ atr
                     (conj Hds (conj Hf2 (conj Hne1 (conj Hn1 eq_refl))))))) as E3.
    pose proof (proj2 (labels_expr mat test_labels nts _)
                  (ex_intro _ ds (ex_intro _ ats
                     (conj Hds (conj Hf4 (conj Hne2 (conj Hn2 eq_refl))))))) as E4.
    apply shape0_ret in Hl1, Hl2.
    cbn [foldl train_images test_images train_labels test_labels] in E1, E2, E3, E4.
    rewrite bind_run, lift_run, E1. cbn beta iota.
    rewrite bind_run, lift_run, Hl1. cbn beta iota.
    rewrite bind_run, lift_run, E3. cbn beta iota.
    rewrite bind_run, lift_run, E2. cbn beta iota.
    rewrite bind_run, lift_run, Hl2. cbn beta iota.
    rewrite bind_run, lift_run, E4. cbn beta iota.
    rewrite bind_run. unfold print, emit. by rewrite ret_run.
Qed.

Lemma well_formed_ret loadmat file_path w mat w1 :
  loadmat file_path w = (Ret mat, w1) →
  well_formed mat ↔ ∃ r w', load_emnist loadmat file_path w = (Ret r, w').
Proof.
  intros Hload. split.
  - intros (ds & Xtr & Xts & ltr & lts & Hds & Hf1 & Hf3 & Hf2 & Hf4 &
            [ntr Hl1] & [nts Hl2] & Hfit1 & Hfit2).
    destruct ltr as [atr|]; [|done]. destruct lts as [ats|]; [|done].
    destruct Hfit1 as [Hne1 Hn1], Hfit2 as [Hne2 Hn2].
    eexists _, _. apply (load_emnist_ret _ _ _ _ _ _ _ Hload).
    exists ds, Xtr, Xts, atr, ats, ntr, nts. repeat split; try done; congruence.
  - intros (r & w' & Hrun).
    apply (load_emnist_ret _ _ _ _ _ _ _ Hload) in Hrun
      as (ds & Xtr & Xts & atr & ats & ntr & nts & Hds & Hf1 & Hf3 & Hf2 & Hf4 &
          Hl1 & Hl2 & Hne1 & Hn1 & Hne2 & Hn2 & -> & ->).
    exists ds, Xtr, Xts, (Leaf atr), (Leaf ats). unfold has_rows, labels_fit.
    rewrite Hl1, Hl2, Hn1, Hn2. by repeat split; eauto.
Qed.

(** C6.  Whatever [load_emnist] returns is the extraction of the four
    fields from the dictionary [loadmat] gave: the two image arrays as they
    are, the two label arrays flattened and cast to [int], as the list
    [[Xtr, Xts, ytr, yts]].  Besides [loadmat]'s own effects it only prints
    one line.  On a dictionary in the layout of the EMNIST files it does
    return. *)
Theorem load_emnist_extracts_fields loadmat file_path w mat w1 :
  loadmat file_path w = (Ret mat, w1) →
  (∀ r w', load_emnist loadmat file_path w = (Ret r, w') →
     extract_fields mat = Some r ∧ length r = 4%nat ∧
     files w' = files w1 ∧ globals w' = globals w1 ∧
     ∃ ntr nts, new_events w1 w' = [EvPrint (loaded_line ntr nts)]) ∧
  (well_formed mat →
     ∃ r w', load_emnist loadmat file_path w = (Ret r, w') ∧
             extract_fields mat = Some r).
Proof.
  intros Hload.
  assert (Hfwd : ∀ r w', load_emnist loadmat file_path w = (Ret r, w') →
     extract_fields mat = Some r ∧ length r = 4%nat ∧
     files w' = files w1 ∧ globals w' = globals w1 ∧
     ∃ ntr nts, new_events w1 w' = [EvPrint (loaded_line ntr nts)]).
  { intros r w' Hrun.
    apply (load_emnist_ret _ _ _ _ _ _ _ Hload) in Hrun
      as (ds & Xtr & Xts & atr & ats & ntr & nts & Hds & Hf1 & Hf3 & Hf2 & Hf4 &
          Hl1 & Hl2 & Hne1 & Hn1 & Hne2 & Hn2 & -> & ->).
    split.
    - unfold extract_fields. rewrite Hds. cbn [mbind option_bind].
      rewrite Hf1, Hf3, Hf2, Hf4. cbn. by rewrite Hn1, Hn2.
    - do 3 (split; [done|]). exists ntr, nts. by apply new_events_app. }
  split; [exact Hfwd|].
  intros (r & w' & Hrun)%(well_formed_ret _ _ _ _ _ Hload).
  exists r, w'. split; [done|]. by apply Hfwd in Hrun as [? _].
Qed.

Lemma load_emnist_shapes loadmat file_path w Xtr Xts ytr yts w' :
  load_emnist loadmat file_path w = (Ret [Xtr; Xts; ytr; yts], w') →
  (∃ ntr, py_len Xtr = Some ntr ∧ shape_of ytr = [ntr]) ∧
  (∃ nts, py_len Xts = Some nts ∧ shape_of yts = [nts]).
Proof.
  intros Hrun. destruct (loadmat file_path w) as [[mat|e] w1] eqn:Hload.
  - destruct (proj1 (load_emnist_ret _ _ _ _ _ _ _ Hload) Hrun)
      as (ds & Xtr' & Xts' & atr & ats & ntr & nts & Hds & Hf1 & Hf3 & Hf2 & Hf4 &
          Hl1 & Hl2 & Hne1 & Hn1 & Hne2 & Hn2 & Hr & Hw).
    simplify_eq. split; eauto.
  - unfold load_emnist in Hrun. rewrite bind_run, Hload in Hrun. discriminate.
Qed.

(** ** The stub cells *)


Lemma same_except_refl xs g : same_except xs g g.
Proof. by intros x _. Qed.

Lemma same_except_trans xs g1 g2 g3 :
  same_except xs g1 g2 → same_except xs g2 g3 → same_except xs g1 g3.
Proof. intros H12 H23 x Hx. by rewrite (H23 x Hx), (H12 x Hx). Qed.

Lemma same_except_insert xs x v g : x ∈ xs → same_except xs g (<[x := v]> g).
Proof.
  intros Hin z Hz. apply lookup_insert_ne. intros ->. contradiction.
Qed.

Lemma exec_constant_binding s w :
  constant_binding s = true →
  ∃ o w', exec s w = (o, w') ∧ files w' = files w ∧ trace w' = trace w ∧
          same_except stub_constants (globals w) (globals w').
Proof.
  destruct s as [text| |x e|package name]; cbn [constant_binding exec]; intros Hs.
  - exists (Ret ()), w. repeat split; auto using same_except_refl.
  - exists (Ret ()), w. repeat split; auto using same_except_refl.
  - apply andb_true_iff in Hs as [Hx%bool_decide_eq_true_1 _].
    destruct (eval (globals w) e) as [v|err].
    + eexists _, _. split; [reflexivity|]. cbn [assign files globals trace].
      repeat split. by apply same_except_insert.
    + exists (Raise err), w. repeat split; auto using same_except_refl.
  - discriminate.
Qed.

Lemma run_cell_constant_bindings c : ∀ w,
  forallb constant_binding c = true →
  ∃ o w', run_cell c w = (o, w') ∧ files w' = files w ∧ trace w' = trace w ∧
          same_except stub_constants (globals w) (globals w').
Proof.
  induction c as [|s rest IH]; intros w Hc.
  - exists (Ret ()), w. repeat split; auto using same_except_refl.
  - cbn [forallb] in Hc. apply andb_true_iff in Hc as [Hs Hrest].
    destruct (exec_constant_binding s w Hs) as (o & w1 & Hexec & Hf & Ht & Hg).
    cbn [run_cell]. rewrite bind_run, Hexec. destruct o as [[]|err].
    + destruct (IH w1 Hrest) as (o' & w' & Hrun & Hf' & Ht' & Hg').
      exists o', w'. split; [exact Hrun|]. rewrite Hf', Ht'.
      repeat split; try done. by eapply same_except_trans.
    + by exists (Raise err), w1.
Qed.

Ltac cell_run Hnp :=
  cbn -[insert lookup];
  repeat (first [rewrite bind_run | rewrite ret_run | progress unfold assign];
          cbn -[insert lookup];
          repeat first [ rewrite lookup_insert_eq
                       | rewrite lookup_insert_ne by done
                       | rewrite Hnp ];
          cbn -[insert lookup]).

Lemma run_cell_succeeds n c w :
  todo n = Some c → globals w !! "np" = Some (VModule "numpy") →
  ∃ w', run_cell c w = (Ret (), w').
Proof.
  intros Hc Hnp.
  do 23 (destruct n as [|n];
         [ try discriminate Hc; injection Hc as <-; cell_run Hnp; by eexists | ]).
  discriminate Hc.
Qed.

Lemma new_events_same w w' : trace w' = trace w → new_events w w' = [].
Proof. intros H. apply new_events_app. by rewrite app_nil_r. Qed.

Lemma constant_cell_frame n c w :
  todo n = Some c → forallb constant_binding c = true →
  ∃ o w', run_cell c w = (o, w') ∧
          (globals w !! "np" = Some (VModule "numpy") → o = Ret ()) ∧
          files w' = files w ∧ new_events w w' = [] ∧
          same_except stub_constants (globals w) (globals w').
Proof.
  intros Hn Hc.
  destruct (run_cell_constant_bindings c w Hc) as (o & w' & Hrun & Hf & Ht & Hg).
  exists o, w'. split; [exact Hrun|]. split.
  - intros Hnp. destruct (run_cell_succeeds n c w Hn Hnp) as [w'' Hok]. congruence.
  - split; [exact Hf|]. split; [by apply new_events_same | exact Hg].
Qed.

Lemma svm_cell_frame c w :
  todo 9 = Some c →
  run_cell c w = (Ret (), World (files w) (<["svm" := VModule "sklearn.svm"]> (globals w))
                            (trace w ++ [EvImport "sklearn.svm"])).
Proof. by intros [= <-]. Qed.

(** C9, as amended.  Every cell [# TODO n], n from 1 to 22, contains,
    besides comment lines, at most literal constant bindings (of
    [remove_list]; [ntr_dig], [ntr_let], [nts_dig], [nts_let]; [C_test],
    [gam_test], [nC], [ngam], [acc], from literals and [np.array], [len]
    and [np.zeros] of them) and, in the TODO 9 cell, the import
    [from sklearn import svm].  Running a cell performs no I/O (it adds no
    event at all and leaves the files alone), and changes no program state
    other than binding those named constants, except that the TODO 9 cell
    imports [sklearn.svm] and binds the name [svm].  With [np] bound to
    the numpy module, as the import cell binds it, no cell raises. *)
Theorem stub_cells_bind_constants_or_import n :
  (1 ≤ n ≤ 22)%nat →
  ∃ c, todo n = Some c ∧
       forallb binding_or_svm_import c = true ∧
       (n ≠ 9%nat → forallb constant_binding c = true) ∧
       ∀ w, ∃ o w', run_cell c w = (o, w') ∧
         (globals w !! "np" = Some (VModule "numpy") → o = Ret ()) ∧
         files w' = files w ∧
         new_events w w' =
           (if decide (n = 9%nat) then [EvImport "sklearn.svm"] else []) ∧
         same_except (if decide (n = 9%nat) then ["svm"] else stub_constants)
                     (globals w) (globals w').
Proof.
  intros [Hlo Hhi].
  assert (Hcell : ∃ c, todo n = Some c ∧ forallb binding_or_svm_import c = true ∧
                       (n ≠ 9%nat → forallb constant_binding c = true)).
  { do 23 (destruct n as [|n];
           [ first [ lia | eexists; split; [reflexivity|]; split; [reflexivity|];
                           first [ intros _; reflexivity | intros Hne; by destruct Hne ] ]
           | ]).
    lia. }
  destruct Hcell as (c & Hn & Hsyn & Hconst).
  exists c. split; [exact Hn|]. split; [exact Hsyn|]. split; [exact Hconst|].
  intros w. destruct (decide (n = 9%nat)) as [->|Hne].
  - rewrite (svm_cell_frame c w Hn). eexists _, _. split; [reflexivity|].
    split; [done|]. split; [done|]. split; [by apply new_events_app|].
    cbn [globals]. apply same_except_insert. by left.
  - by apply (constant_cell_frame n c w Hn), Hconst.
Qed.

(** The TODO 9 cell is not made of comments and constant bindings. *)
Lemma todo9_imports_svm :
  todo 9 = Some [ FromImport "sklearn" "svm"; Blank;
                  Comment "TODO 9:  Create a classifier: a support vector classifier";
                  Comment "svc = ..." ] ∧
  forallb constant_binding
    [ FromImport "sklearn" "svm"; Blank;
      Comment "TODO 9:  Create a classifier: a support vector classifier";
      Comment "svc = ..." ] = false ∧
  run_cell [ FromImport "sklearn" "svm"; Blank;
             Comment "TODO 9:  Create a classifier: a support vector classifier";
             Comment "svc = ..." ] (World ∅ ∅ [])
    = (Ret (), World ∅ {["svm" := VModule "sklearn.svm"]} [EvImport "sklearn.svm"]) ∧
  "svm" ∉ stub_constants.
Proof.
  split; [reflexivity|]. split; [reflexivity|]. split; [reflexivity|].
  unfold stub_constants. rewrite list_elem_of_In. cbn. intros H.
  repeat (destruct H as [H|H]; [discriminate H|]). exact H.
Qed.

(** ** The data steps *)


Lemma select_length {A} (I : list nat) (a l : list A) :
  select I a = Ret l → length l = length I.
Proof.
  revert l. induction I as [|i rest IH]; intros l; cbn.
  - by intros [= <-].
  - destruct (a !! i); [|discriminate].
    destruct (select rest a) as [xs|]; [|discriminate].
    cbn. intros [= <-]. cbn. by rewrite (IH xs).
Qed.

Lemma select_in_range {A} (I : list nat) (a : list A) :
  Forall (λ i, i < length a)%nat I → ∃ l, select I a = Ret l.
Proof.
  induction 1 as [|i rest Hi _ [l Hl]]; cbn; [by eexists|].
  destruct (lookup_lt_is_Some_2 a i Hi) as [x ->]. rewrite Hl. by eexists.
Qed.

Lemma kept_from_range start removed labels :
  Forall (λ i, start ≤ i < start + length labels)%nat (kept_from start removed labels).
Proof.
  revert start. induction labels as [|l rest IH]; intros start; cbn; [constructor|].
  specialize (IH (S start)).
  assert (Htl : Forall (λ i, start ≤ i < start + S (length rest))%nat
                  (kept_from (S start) removed rest)).
  { eapply Forall_impl; [exact IH|]. cbn. intros; lia. }
  case_bool_decide; [done|]. constructor; [lia | done].
Qed.

Lemma select_samples_consistent {A} (I : list nat) (d d' : dataset A) :
  select_samples I d = Ret d' → consistent d'.
Proof.
  unfold select_samples, consistent.
  destruct (select I (X d)) as [X'|] eqn:HX; [|discriminate].
  destruct (select I (y d)) as [y'|] eqn:Hy; [|discriminate].
  cbn. intros [= <-]. cbn.
  by rewrite (select_length _ _ _ HX), (select_length _ _ _ Hy).
Qed.

Lemma select_samples_in_range {A} (I : list nat) (d : dataset A) :
  consistent d → Forall (λ i, i < length (y d))%nat I →
  ∃ d', select_samples I d = Ret d'.
Proof.
  unfold consistent, select_samples. intros Hc HI.
  destruct (select_in_range I (y d) HI) as [y' ->].
  rewrite Hc in HI. destruct (select_in_range I (X d) HI) as [X' ->].
  by eexists.
Qed.

Lemma merge_consistent {A} (dig letters : dataset A) :
  consistent dig → consistent (merge dig letters).
Proof.
  unfold consistent, merge. cbn. rewrite !length_app, length_replicate. lia.
Qed.

Lemma rescale_consistent (d : dataset Z) : consistent d → consistent (rescale d).
Proof. unfold consistent, rescale. cbn. by rewrite length_map. Qed.

(** C5.  The list [load_emnist] returns has [ytr] of shape
    [(Xtr.shape[0],)] and [yts] of shape [(Xts.shape[0],)], and it does
    return on a dictionary in the layout of the EMNIST files.  Letter
    removal, subsampling, merging and rescaling, as the notebook asks for
    them, take a data set with [len(y) == X.shape[0]] to one with the same
    property. *)
Theorem labels_match_rows loadmat file_path w :
  (∀ Xtr Xts ytr yts w',
     Emnist.load_emnist loadmat file_path w = (Ret [Xtr; Xts; ytr; yts], w') →
     (∃ ntr, Emnist.py_len Xtr = Some ntr ∧ Emnist.shape_of ytr = [ntr]) ∧
     (∃ nts, Emnist.py_len Xts = Some nts ∧ Emnist.shape_of yts = [nts])) ∧
  (∀ mat w1, loadmat file_path w = (Ret mat, w1) → Emnist.well_formed mat →
     ∃ Xtr Xts ytr yts w',
       Emnist.load_emnist loadmat file_path w = (Ret [Xtr; Xts; ytr; yts], w')) ∧
  (∀ A (d : dataset A) removed, consistent d →
     ∃ d', remove_letters removed d = Ret d' ∧ consistent d') ∧
  (∀ A (d : dataset A) order n, consistent d →
     Forall (λ i, i < length (y d))%nat order →
     ∃ d', subsample order n d = Ret d' ∧ consistent d') ∧
  (∀ A (dig letters : dataset A), consistent dig → consistent letters →
     consistent (merge dig letters)) ∧
  (∀ d, consistent d → consistent (rescale d)).
Proof.
  split; [|split; [|split; [|split; [|split]]]].
  - intros Xtr Xts ytr yts w'. apply load_emnist_shapes.
  - intros mat w1 Hload Hwf.
    apply (well_formed_ret _ _ _ _ _ Hload) in Hwf as (r & w' & Hrun).
    destruct (proj1 (load_emnist_ret _ _ _ _ _ _ _ Hload) Hrun)
      as (ds & Xtr & Xts & atr & ats & ntr & nts & _ & _ & _ & _ & _ &
          _ & _ & _ & _ & _ & _ & Hr & _).
    rewrite Hr in Hrun. eauto 10.
  - intros A d removed Hc.
    destruct (select_samples_in_range (kept_from 0 removed (y d)) d Hc) as [d' Hd'].
    { eapply Forall_impl; [apply kept_from_range|]. cbn. intros; lia. }
    exists d'. split; [exact Hd'|]. by eapply select_samples_consistent.
  - intros A d order n Hc Hrange.
    destruct (select_samples_in_range (take n order) d Hc) as [d' Hd'].
    { by apply Forall_take. }
    exists d'. split; [exact Hd'|]. by eapply select_samples_consistent.
  - intros A dig letters Hc _. by apply merge_consistent.
  - apply rescale_consistent.
Qed.

(** C1.  In the merged data set every sample has a label: a digit sample
    keeps its own label, a letter sample gets 10.  With digit labels from 0
    to 9, the label tells the two classes apart and no more: it stands for
    the non-digit class exactly at the letter samples and for the digit
    class exactly at the digit samples.  The same holds for the training
    and for the test set, which are merged alike. *)
Theorem merged_labels_digit_or_non_digit {A} (dig letters : dataset A) :
  consistent dig →
  Forall digit_label (y dig) →
  consistent (merge dig letters) ∧
  (∀ i, is_digit_sample dig i → y (merge dig letters) !! i = y dig !! i) ∧
  (∀ i, (length (X dig) ≤ i < length (X (merge dig letters)))%nat →
        y (merge dig letters) !! i = Some non_digit) ∧
  (∀ i, (i < length (X (merge dig letters)))%nat →
        ∃ l, y (merge dig letters) !! i = Some l ∧
             (detection_class l = Digit ↔ is_digit_sample dig i) ∧
             (detection_class l = NonDigit ↔ ¬ is_digit_sample dig i)).
Proof.
  intros Hc Hdig.
  assert (Hd : ∀ i, is_digit_sample dig i → y (merge dig letters) !! i = y dig !! i).
  { intros i Hi. unfold is_digit_sample in Hi. unfold merge. cbn [y].
    apply lookup_app_l. unfold consistent in Hc. lia. }
  assert (Hl : ∀ i, (length (X dig) ≤ i < length (X (merge dig letters)))%nat →
                    y (merge dig letters) !! i = Some non_digit).
  { intros i [Hlo Hhi]. unfold merge in *. cbn [X y] in *.
    rewrite length_app in Hhi. unfold consistent in Hc.
    rewrite lookup_app_r by lia. apply lookup_replicate_2. lia. }
  split; [by apply merge_consistent|]. split; [exact Hd|]. split; [exact Hl|].
  intros i Hi. unfold is_digit_sample.
  destruct (decide (i < length (X dig))%nat) as [Hlt|Hge].
  - destruct (lookup_lt_is_Some_2 (y dig) i) as [l Hyl];
      [unfold consistent in Hc; lia|].
    exists l. split; [by rewrite (Hd i Hlt)|].
    apply list_elem_of_lookup_2 in Hyl.
    pose proof (proj1 (Forall_forall _ _) Hdig l Hyl) as Hb.
    unfold digit_label, non_digit in Hb. unfold detection_class, non_digit.
    rewrite bool_decide_eq_false_2 by lia. by split.
  - exists non_digit. split; [apply Hl; lia|].
    unfold detection_class. rewrite bool_decide_eq_true_2 by done.
    by split.
Qed.

Local Open Scope Q_scope.

(** C7.  The rescaling sends 0 to -1 and 255 to 1, is strictly increasing,
    takes pixel values from 0 to 255 into the range from -1 to 1 and reaches
    every value of that range, and is the only affine map with these two
    end values.  [rescale] applies it to every pixel of the training and of
    the test matrix alike and leaves the labels alone. *)
Theorem rescale_affine_monotone :
  rescale_pixel 0 == -1 ∧
  rescale_pixel 255 == 1 ∧
  (∀ x1 x2 : Q, x1 < x2 → rescale_value x1 < rescale_value x2) ∧
  (∀ p q : Z, (p ≤ q)%Z → rescale_pixel p <= rescale_pixel q) ∧
  (∀ p : Z, (0 ≤ p ≤ 255)%Z → -1 <= rescale_pixel p <= 1) ∧
  (∀ v : Q, -1 <= v <= 1 → ∃ x : Q, 0 <= x <= 255 ∧ rescale_value x == v) ∧
  (∀ a b : Q, a * 0 + b == -1 → a * 255 + b == 1 →
     ∀ x : Q, a * x + b == rescale_value x) ∧
  (∀ train test : dataset Z,
     X (rescale train) = map (map rescale_pixel) (X train) ∧
     X (rescale test) = map (map rescale_pixel) (X test) ∧
     y (rescale train) = y train ∧ y (rescale test) = y test).
Proof.
  unfold rescale_pixel, rescale_value.
  split; [reflexivity|]. split; [reflexivity|].
  split; [intros x1 x2 H; lra|].
  split.
  { intros p q Hpq. rewrite Zle_Qle in Hpq. lra. }
  split.
  { intros p [H0 H1]. rewrite Zle_Qle in H0, H1.
    change (inject_Z 0) with 0 in H0. change (inject_Z 255) with 255 in H1. lra. }
  split.
  { intros v [Hlo Hhi]. exists ((255 # 2) * (v + 1)). split; [lra|]. field. }
  split.
  { intros a b H0 H1 x. assert (b == -1) by lra. assert (a == 2 # 255) by lra.
    rewrite H, H2. reflexivity. }
  by intros train test.
Qed.

(** ** The theorems at concrete inputs *)

Import Examples.

Lemma driver_cell_name_error_witness :
  ∃ w', download_cell (server short_response) no_archive half_unpacked
          = (Raise (NameError "files_exists"), w') ∧
        files w' = files half_unpacked.
Proof.
  destruct (driver_cell_name_error (server short_response) no_archive half_unpacked)
    as (w' & Hrun & Hfiles & _).
  - vm_compute. eauto.
  - right. reflexivity.
  - reflexivity.
  - exists w'. split; [exact Hrun | exact Hfiles].
Defined.



Lemma no_declared_length_no_error_witness :
  error_line ∉ printed
    (new_events fresh (download_file (server unsized_response) "u" "d" fresh).2).
Proof.
  apply (no_declared_length_no_error (server unsized_response) "u" "d" fresh
           unsized_response); reflexivity.
Defined.

Lemma download_file_existing_noop_witness :
  ∃ w1, download_file (server short_response) "u" "matlab.zip" with_zip = (Ret (), w1) ∧
        files w1 = files with_zip ∧
        requested (new_events with_zip w1) = [].
Proof.
  destruct (download_file_existing_noop (server short_response) "u" "matlab.zip" with_zip)
    as (w1 & w2 & Hrun & _ & Hreq & _ & Hfiles & _).
  - vm_compute. eauto.
  - exists w1. split; [exact Hrun|]. split; [exact Hfiles | exact Hreq].
Defined.

Lemma toy_mat_well_formed : well_formed toy_mat.
Proof.
  unfold well_formed, toy_mat. eexists _, _, _, _, _.
  split; [apply lookup_insert_eq|].
  do 4 (split; [reflexivity|]).
  split; [by eexists|]. split; [by eexists|]. by split.
Defined.

Lemma load_emnist_extracts_fields_witness :
  ∃ r w', load_emnist toy_loadmat "emnist-digits.mat" fresh = (Ret r, w') ∧
          extract_fields toy_mat = Some r.
Proof.
  destruct (load_emnist_extracts_fields toy_loadmat "emnist-digits.mat" fresh
              toy_mat fresh) as [_ Hret]; [reflexivity|].
  exact (Hret toy_mat_well_formed).
Defined.

Lemma stub_cells_bind_constants_or_import_witness :
  ∃ c, todo 14 = Some c ∧ forallb constant_binding c = true.
Proof.
  destruct (stub_cells_bind_constants_or_import 14) as (c & Hc & _ & Hconst & _);
    [lia|].
  exists c. split; [exact Hc|]. apply Hconst. lia.
Defined.

Lemma ten_digits_labels : Forall digit_label (y ten_digits).
Proof.
  apply Forall_forall. intros l Hl. unfold ten_digits in Hl. cbn [y] in Hl.
  apply elem_of_seqZ in Hl. unfold digit_label. lia.
Defined.

Lemma merged_labels_digit_or_non_digit_witness :
  y (merge ten_digits one_letter) = [0; 1; 2; 3; 4; 5; 6; 7; 8; 9; 10]%Z ∧
  ∃ l, y (merge ten_digits one_letter) !! 10%nat = Some l ∧
       detection_class l = NonDigit.
Proof.
  destruct (merged_labels_digit_or_non_digit ten_digits one_letter)
    as (_ & _ & _ & Hclass).
  - reflexivity.
  - exact ten_digits_labels.
  - split; [reflexivity|].
    destruct (Hclass 10%nat) as (l & Hl & _ & Hnon); [vm_compute; lia|].
    exists l. split; [exact Hl|]. apply Hnon. unfold is_digit_sample.
    vm_compute. lia.
Defined.

(** * Further properties *)

Local Open Scope string_scope.
Local Open Scope Z_scope.
Local Open Scope list_scope.

Import Unpack.

(** ** [download_file]: failures and what is left behind *)

Lemma download_file_unreachable_run http src_url dst_fn w :
  files w !! dst_fn = None →
  http src_url = None →
  download_file http src_url dst_fn w =
    (Raise ConnectionError,
     World (files w) (globals w)
           (trace w ++ [EvPrint ("Downloading " +:+ dst_fn); EvGet src_url])).
Proof.
  intros Hno Hnone. unfold download_file. py_run.
  rewrite bool_decide_eq_false_2 by (rewrite Hno; by intros [? ?]).
  py_run. unfold requests_get. py_run. rewrite Hnone. py_run.
  by rewrite <- app_assoc.
Qed.

Lemma download_file_malformed_run http src_url dst_fn w r :
  files w !! dst_fn = None →
  http src_url = Some r →
  content_length r = HMalformed →
  download_file http src_url dst_fn w =
    (Raise ValueError,
     World (files w) (globals w)
           (trace w ++ [EvPrint ("Downloading " +:+ dst_fn); EvGet src_url])).
Proof.
  intros Hno Hr Hbad. unfold download_file. py_run.
  rewrite bool_decide_eq_false_2 by (rewrite Hno; by intros [? ?]).
  py_run. unfold requests_get. py_run. rewrite Hr. py_run.
  unfold total_size_of. rewrite Hbad. py_run.
  by rewrite <- app_assoc.
Qed.

(** X1.  When the file is missing and the server cannot be reached, or its
    [content-length] is not a number, [download_file] raises
    ([ConnectionError], [ValueError]) after one request and before the file
    is opened: no file is created. *)
Theorem download_file_fails_before_opening http src_url dst_fn w :
  files w !! dst_fn = None →
  (http src_url = None ∨
   ∃ r, http src_url = Some r ∧ content_length r = HMalformed) →
  ∃ w', download_file http src_url dst_fn w =
          (Raise (match http src_url with
                  | None => ConnectionError
                  | Some _ => ValueError
                  end), w') ∧
        files w' = files w ∧
        globals w' = globals w ∧
        requested (new_events w w') = [src_url] ∧
        opened_w (new_events w w') = [].
Proof.
  intros Hno [Hnone|(r & Hr & Hbad)].
  - rewrite (download_file_unreachable_run _ _ _ _ Hno Hnone), Hnone.
    eexists. split; [reflexivity|]. cbn [files globals].
    do 2 (split; [reflexivity|]).
    by erewrite new_events_app by (cbn [trace]; reflexivity).
  - rewrite (download_file_malformed_run _ _ _ _ _ Hno Hr Hbad), Hr.
    eexists. split; [reflexivity|]. cbn [files globals].
    do 2 (split; [reflexivity|]).
    by erewrite new_events_app by (cbn [trace]; reflexivity).
Qed.


Lemma download_file_frame_run http src_url dst_fn w :
  globals (download_file http src_url dst_fn w).2 = globals w ∧
  (∀ p, p ≠ dst_fn →
        (files (download_file http src_url dst_fn w).2) !! p = files w !! p) ∧
  trace w `prefix_of` trace (download_file http src_url dst_fn w).2.
Proof.
  destruct (files w !! dst_fn) as [n|] eqn:Hf.
  - rewrite download_file_existing_run by (by rewrite Hf). cbn [snd files globals trace].
    split; [done|]. split; [done|]. by apply prefix_app_r.
  - destruct (http src_url) as [r|] eqn:Hr.
    + destruct (declared_size r) as [total|] eqn:Hsz.
      * destruct (parent_check (files w) dst_fn) as [[]|e] eqn:Hpar.
        -- rewrite (download_file_fresh_run _ _ _ _ _ _ Hf Hpar Hr Hsz). cbn zeta.
           destruct (broken r); [|destruct (negb _ && negb _)];
             cbn [snd files globals trace];
             (split; [done|]); (split; [by intros p Hp; rewrite lookup_insert_ne|]);
             rewrite <- ?app_assoc; by apply prefix_app_r.
        -- rewrite (download_file_blocked_run _ _ _ _ _ _ _ Hf Hpar Hr Hsz).
           cbn [snd files globals trace].
           split; [done|]. split; [done|]. by apply prefix_app_r.
      * assert (Hbad : content_length r = HMalformed).
        { unfold declared_size in Hsz. by destruct (content_length r). }
        rewrite (download_file_malformed_run _ _ _ _ _ Hf Hr Hbad).
        cbn [snd files globals trace].
        split; [done|]. split; [done|]. by apply prefix_app_r.
    + rewrite (download_file_unreachable_run _ _ _ _ Hf Hr).
      cbn [snd files globals trace].
      split; [done|]. split; [done|]. by apply prefix_app_r.
Qed.

(** X3.  Whatever the server does and however the call ends,
    [download_file] binds no global, touches no file other than [dst_fn],
    and only adds to the trace. *)
Theorem download_file_frame http src_url dst_fn w o w' :
  download_file http src_url dst_fn w = (o, w') →
  globals w' = globals w ∧
  (∀ p, p ≠ dst_fn → files w' !! p = files w !! p) ∧
  trace w `prefix_of` trace w'.
Proof.
  intros Hrun. pose proof (download_file_frame_run http src_url dst_fn w) as H.
  by rewrite Hrun in H.
Qed.



(** ** The driver of the download cell *)













Lemma unpack_bad_archive_run unzip dst_fn w c :
  files w !! dst_fn = Some (File c) →
  unzip c = None →
  unpack unzip dst_fn w =
    (Raise BadZipFile,
     World (files w) (globals w)
           (trace w ++ [EvPrint ("Unzipping " +:+ dst_fn +:+ "...")])).
Proof.
  intros Hf Hz. unfold unpack. py_run. unfold zipfile_open.
  cbn [files globals trace]. by rewrite Hf, Hz.
Qed.

Lemma driver_absent_run http unzip w :
  files w !! matlab_dir = None →
  driver http unzip w =
    (download_file http zip_url "matlab.zip" ≫= λ _, unpack unzip "matlab.zip")
      (World (files w) (download_globals (globals w)) (trace w)).
Proof.
  intros Hdir. unfold driver. py_run.
  rewrite bool_decide_eq_false_2 by (rewrite Hdir; by intros [? ?]).
  py_run. unfold var. cbn [files globals trace]. rewrite lookup_insert_eq.
  cbn [truthy]. rewrite bind_run, lift_run. cbn [negb]. py_run. reflexivity.
Qed.

Lemma driver_present_run http unzip w :
  is_Some (files w !! matlab_dir) →
  is_Some (files w !! digits_fn) →
  is_Some (files w !! letters_fn) →
  driver http unzip w =
    (Ret (),
     World (files w) (<["files_exists" := VBool true]> (name_globals (globals w)))
           (trace w ++ [EvPrint "Files already downloaded"])).
Proof.
  intros Hdir Hd Hl. unfold driver. py_run.
  rewrite (bool_decide_eq_true_2 _ Hdir). py_run.
  rewrite (bool_decide_eq_true_2 _ Hd). py_run. cbn [files globals trace].
  rewrite (bool_decide_eq_true_2 _ Hl). py_run.
  unfold var. cbn [files globals trace]. rewrite lookup_insert_eq.
  cbn [truthy]. rewrite bind_run, lift_run. cbn [negb]. py_run. reflexivity.
Qed.

Lemma driver_stale_run http unzip w v :
  is_Some (files w !! matlab_dir) →
  files w !! digits_fn = None ∨ files w !! letters_fn = None →
  globals w !! "files_exists" = Some v →
  truthy v = Ret true →
  driver http unzip w =
    (Ret (), World (files w) (name_globals (globals w)) (trace w)).
Proof.
  intros Hdir Hmiss Hv Ht. unfold driver. py_run.
  rewrite (bool_decide_eq_true_2 _ Hdir). py_run.
  assert (Hvar : (name_globals (globals w)) !! "files_exists" = Some v).
  { unfold name_globals. by rewrite !lookup_insert_ne. }
  destruct (bool_decide (is_Some (files w !! digits_fn))) eqn:Hd;
    py_run; cbn [files globals trace];
    [ destruct (bool_decide (is_Some (files w !! letters_fn))) eqn:Hl;
      py_run;
      [ exfalso; apply bool_decide_eq_true_1 in Hd, Hl;
        destruct Hd as [? Hd], Hl as [? Hl], Hmiss; congruence | ]
    | ];
    unfold var; cbn [files globals trace];
    fold (name_globals (globals w)); rewrite Hvar; cbn beta iota;
    rewrite bind_run, lift_run, Ht; cbn [negb];
    by py_run.
Qed.

(** The events of a download that runs to its end. *)
Local Abbreviation download_events total r :=
  (transfer_events zip_url "matlab.zip" total r ++
   if negb (total =? 0) && negb (wrote_of r =? total)
   then [EvPrint error_line] else []).

Lemma driver_downloaded_run http unzip w r total :
  files w !! matlab_dir = None →
  files w !! "matlab.zip" = None →
  http zip_url = Some r →
  declared_size r = Some total →
  broken r = false →
  driver http unzip w =
    unpack unzip "matlab.zip"
      (World (<["matlab.zip" := File (delivered r)]> (files w))
             (download_globals (globals w))
             (trace w ++ download_events total r)).
Proof.
  intros Hdir Hzip Hr Hsz Hbr. rewrite (driver_absent_run _ _ _ Hdir), bind_run.
  rewrite (download_file_fresh_run _ _ _ _ r total) by done.
  cbn zeta. rewrite Hbr. cbn [files globals trace].
  destruct (negb (total =? 0) && negb (wrote_of r =? total)).
  - by rewrite <- app_assoc.
  - by rewrite app_nil_r.
Qed.

(** X5.  When the directory and both files are there, the cell has nothing
    to do: it prints one line, binds [files_exists] to [True], sends no
    request and leaves the files alone, whatever was bound before. *)
Theorem driver_files_present http unzip w :
  is_Some (files w !! matlab_dir) →
  is_Some (files w !! digits_fn) →
  is_Some (files w !! letters_fn) →
  ∃ w', driver http unzip w = (Ret (), w') ∧
        files w' = files w ∧
        new_events w w' = [EvPrint "Files already downloaded"] ∧
        globals w' !! "files_exists" = Some (VBool true).
Proof.
  intros Hdir Hd Hl. rewrite (driver_present_run _ _ _ Hdir Hd Hl).
  eexists. split; [reflexivity|]. cbn [files globals]. split; [reflexivity|].
  split; [by apply new_events_app | apply lookup_insert_eq].
Qed.

(** X6.  When the directory exists, a file is missing, and [files_exists]
    is still bound to a true value from an earlier run, no branch rebinds
    it: the cell returns without a word, downloads nothing, and the file
    stays missing. *)
Theorem driver_stale_flag http unzip w v :
  is_Some (files w !! matlab_dir) →
  files w !! digits_fn = None ∨ files w !! letters_fn = None →
  globals w !! "files_exists" = Some v →
  truthy v = Ret true →
  ∃ w', driver http unzip w = (Ret (), w') ∧
        files w' = files w ∧
        new_events w w' = [] ∧
        globals w' !! "files_exists" = Some v.
Proof.
  intros Hdir Hmiss Hv Ht. rewrite (driver_stale_run _ _ _ v Hdir Hmiss Hv Ht).
  eexists. split; [reflexivity|]. cbn [files globals]. split; [reflexivity|].
  split; [by apply new_events_same|].
  unfold name_globals. by rewrite !lookup_insert_ne.
Qed.



(** X9.  When what was downloaded is not a zip archive, the cell raises
    [BadZipFile] and leaves the bytes in [matlab.zip].  Running the cell
    again does not help: the file exists, so nothing is fetched, and the
    same bytes fail to open again. *)
Theorem driver_bad_archive_stuck http unzip w r total :
  files w !! matlab_dir = None →
  files w !! "matlab.zip" = None →
  http zip_url = Some r →
  declared_size r = Some total →
  broken r = false →
  unzip (delivered r) = None →
  ∃ w1, driver http unzip w = (Raise BadZipFile, w1) ∧
        files w1 = <["matlab.zip" := File (delivered r)]> (files w) ∧
        ∀ http',
          ∃ w2, driver http' unzip w1 = (Raise BadZipFile, w2) ∧
                requested (new_events w1 w2) = [] ∧
                files w2 = files w1.
Proof.
  intros Hdir Hzip Hr Hsz Hbr Hz.
  rewrite (driver_downloaded_run _ _ _ r total) by done.
  rewrite (unpack_bad_archive_run _ _ _ (delivered r))
    by (done || apply lookup_insert_eq).
  eexists. split; [reflexivity|]. cbn [files]. split; [reflexivity|].
  intros http'.
  rewrite driver_absent_run by (cbn [files]; by rewrite lookup_insert_ne).
  rewrite bind_run.
  rewrite download_file_existing_run
    by (cbn [files]; rewrite lookup_insert_eq; by eexists).
  rewrite (unpack_bad_archive_run _ _ _ (delivered r))
    by (done || apply lookup_insert_eq).
  eexists. split; [reflexivity|]. cbn [files]. split; [|reflexivity].
  by erewrite new_events_app by (cbn [trace]; rewrite <- !app_assoc; reflexivity).
Qed.




(** ** [load_emnist]: failures *)

Lemma load_emnist_raise_world loadmat file_path w mat w1 e w' :
  loadmat file_path w = (Ret mat, w1) →
  load_emnist loadmat file_path w = (Raise e, w') →
  w' = w1.
Proof.
  intros Hload H. unfold load_emnist in H. rewrite bind_run, Hload in H.
  do 6 (rewrite bind_run, lift_run in H; cbn beta iota in H;
        match type of H with
        | context [match ?o with Ret _ => _ | Raise _ => _ end] =>
            destruct o; [|by injection H as _ <-]
        end).
  rewrite bind_run in H. unfold print, emit in H. rewrite ret_run in H.
  discriminate H.
Qed.

(** X12.  On a dictionary that is not in the layout of the EMNIST files,
    [load_emnist] raises, and it does so before its one [print]: nothing is
    printed and the world is as [loadmat] left it. *)
Theorem load_emnist_fails_clean loadmat file_path w mat w1 :
  loadmat file_path w = (Ret mat, w1) →
  ¬ well_formed mat →
  ∃ e, load_emnist loadmat file_path w = (Raise e, w1).
Proof.
  intros Hload Hbad.
  destruct (load_emnist loadmat file_path w) as [[r|e] w'] eqn:Hrun.
  - exfalso. apply Hbad. apply (well_formed_ret _ _ _ _ _ Hload). eauto.
  - exists e. by rewrite (load_emnist_raise_world _ _ _ _ _ _ _ Hload Hrun).
Qed.

(** X13.  Without the key [dataset] in the dictionary, [load_emnist] raises
    [KeyError('dataset')]. *)
Theorem load_emnist_missing_key loadmat file_path w mat w1 :
  loadmat file_path w = (Ret mat, w1) →
  mat !! "dataset" = None →
  load_emnist loadmat file_path w = (Raise (KeyError "dataset"), w1).
Proof.
  intros Hload Hkey. unfold load_emnist. rewrite bind_run, Hload.
  rewrite bind_run, lift_run. unfold dict_get. by rewrite Hkey.
Qed.

(** X14.  When the training labels are an array whose number of elements
    differs from the number of rows of the training images, [reshape]
    refuses: [load_emnist] raises [ValueError], whatever the test fields
    hold. *)
Theorem load_emnist_label_count_mismatch loadmat file_path w mat w1 ds Xtr a n :
  loadmat file_path w = (Ret mat, w1) →
  mat !! "dataset" = Some ds →
  field_at train_images ds = Some Xtr →
  py_len Xtr = Some n →
  field_at train_labels ds = Some (Leaf a) →
  nd_shape a ≠ [] →
  prod_shape (nd_shape a) ≠ n →
  load_emnist loadmat file_path w = (Raise ValueError, w1).
Proof.
  intros Hload Hds Himg Hlen Hlab Hne Hsize.
  assert (E1 : index_path mat train_images ≫= full_slice = Ret Xtr)
    by (apply images_expr; exists ds; unfold has_rows; rewrite Hlen; eauto).
  assert (E2 : index_path mat train_labels = Ret (Leaf a))
    by (apply index_from_dataset; eauto).
  apply shape0_ret in Hlen.
  cbn [foldl train_images train_labels] in E1, E2.
  unfold load_emnist. rewrite bind_run, Hload.
  rewrite bind_run, lift_run, E1. cbn beta iota.
  rewrite bind_run, lift_run, Hlen. cbn beta iota.
  rewrite bind_run, lift_run, E2.
  cbn [mbind outcome_bind full_slice]. destruct (nd_shape a) as [|d s] eqn:Hs; [done|].
  cbn [mbind outcome_bind reshape]. rewrite Hs.
  by rewrite decide_False.
Qed.

(** ** [plt_digit] *)

Import Plot.

Lemma bind_singleton_fmap {A B} (g : A → B) (l : list A) :
  (x ← l; [g x]) = g <$> l.
Proof. induction l as [|x l IH]; [done|]. cbn. by rewrite IH. Qed.

Lemma lookup_bind_uniform {A} (f : nat → list A) (r : nat) :
  (∀ i, length (f i) = r) →
  ∀ c s i j, (i < c)%nat → (j < r)%nat →
    (seq s c ≫= f) !! (i * r + j)%nat = f (s + i)%nat !! j.
Proof.
  intros Hlen. induction c as [|c IH]; intros s i j Hi Hj; [lia|].
  cbn [seq]. rewrite bind_cons. destruct i as [|i].
  - rewrite Nat.add_0_r. cbn. apply lookup_app_l. by rewrite Hlen.
  - rewrite lookup_app_r by (rewrite Hlen; cbn; lia).
    rewrite Hlen. replace (S i * r + j - r)%nat with (i * r + j)%nat by (cbn; lia).
    rewrite (IH (S s) i j) by lia. f_equal. f_equal. lia.
Qed.

Lemma item2_transpose a r c i j :
  nd_shape a = [r; c] →
  length (nd_data a) = (r * c)%nat →
  (i < c)%nat → (j < r)%nat →
  item2 (transpose a) i j = nd_data a !! (j * c + i)%nat.
Proof.
  intros Hs Hlen Hi Hj. unfold transpose, item2. rewrite Hs. cbn [nd_shape nd_data].
  rewrite decide_True by done.
  rewrite (lookup_bind_uniform
             (λ i, j ← seq 0 r; [nth (j * c + i) (nd_data a) 0]) r).
  - rewrite bind_singleton_fmap, list_lookup_fmap, lookup_seq_lt by done. cbn.
    rewrite nth_lookup.
    destruct (lookup_lt_is_Some_2 (nd_data a) (j * c + i)) as [v ->]; [nia|done].
  - intros k. by rewrite bind_singleton_fmap, length_fmap, length_seq.
  - done.
  - done.
Qed.

(** X15.  [plt_digit] draws 28 by 28 images only: on an array with another
    number of elements than 784 it raises [ValueError] before anything is
    drawn. *)
Theorem plt_digit_wrong_size x y ax :
  prod_shape (nd_shape x) ≠ 784%nat →
  plt_digit x y ax = (Raise ValueError, ax).
Proof.
  intros Hsize. unfold plt_digit, mbind, plot_bind, eval, reshape_to.
  rewrite decide_False; [done|]. exact Hsize.
Qed.

(** X16.  On an array of 784 elements, of whatever shape, [plt_digit] adds
    one image to the axes, clears the ticks of both axes, and sets the
    title to the label in decimal when a label is given, and leaves it
    otherwise.  The image is 28 by 28 and shown transposed: its entry in
    row [i] and column [j] is element [28 * j + i] of the input. *)
Theorem plt_digit_shows_transposed x y ax :
  prod_shape (nd_shape x) = 784%nat →
  length (nd_data x) = 784%nat →
  ∃ img,
    plt_digit x y ax =
      (Ret (), Axes (images ax ++ [(img, "Greys_r")]) (Some []) (Some [])
                 (match y with
                  | Some label => Some (pretty label)
                  | None => title ax
                  end)) ∧
    nd_shape img = [28; 28]%nat ∧
    ∀ i j, (i < 28)%nat → (j < 28)%nat →
           item2 img i j = nd_data x !! (28 * j + i)%nat.
Proof.
  intros Hsize Hlen.
  exists (transpose (NdArray (nd_dtype x) [28; 28]%nat (nd_data x))).
  split; [|split].
  - unfold plt_digit, mbind, plot_bind, eval, reshape_to.
    rewrite decide_True by exact Hsize. by destruct y.
  - reflexivity.
  - intros i j Hi Hj.
    rewrite (item2_transpose _ 28 28 i j); [|done|exact Hlen|done|done].
    cbn [nd_data]. f_equal. lia.
Qed.

(** ** The stub cells after the import cell *)

Import Setup.

Lemma todo_constant_binding n c :
  todo n = Some c → n ≠ 9%nat → forallb constant_binding c = true.
Proof.
  intros Hc Hne.
  do 23 (destruct n as [|n];
         [ first [ discriminate Hc | by destruct Hne | by injection Hc as <- ] | ]).
  discriminate Hc.
Qed.

Lemma quiet_trans w1 w2 w3 : quiet w1 w2 → quiet w2 w3 → quiet w1 w3.
Proof.
  intros (e1 & H1 & Hp1 & Hq1) (e2 & H2 & Hp2 & Hq2). exists (e1 ++ e2).
  rewrite H2, H1, <- app_assoc, printed_app, requested_app, Hp1, Hp2, Hq1, Hq2.
  done.
Qed.

Lemma stub_cell_with_numpy c w :
  is_stub c → globals w !! "np" = Some (VModule "numpy") →
  ∃ w', run_cell c w = (Ret (), w') ∧ files w' = files w ∧
        globals w' !! "np" = Some (VModule "numpy") ∧ quiet w w'.
Proof.
  intros [n Hn] Hnp. destruct (decide (n = 9%nat)) as [->|Hne].
  - rewrite (svm_cell_frame c w Hn). eexists. split; [reflexivity|].
    cbn [files globals trace]. split; [done|]. split.
    + by rewrite lookup_insert_ne.
    + by exists [EvImport "sklearn.svm"].
  - destruct (constant_cell_frame n c w Hn (todo_constant_binding n c Hn Hne))
      as (o & w' & Hrun & Hok & Hf & Hev & Hg).
    rewrite (Hok Hnp) in Hrun. exists w'. split; [exact Hrun|]. split; [exact Hf|].
    split.
    + rewrite (Hg "np"); [exact Hnp|]. unfold stub_constants.
      rewrite list_elem_of_In. cbn. intros H.
      repeat (destruct H as [H|H]; [discriminate H|]). exact H.
    + exists []. rewrite app_nil_r. split; [|done].
      unfold new_events in Hev.
      assert (Hpre : trace w `prefix_of` trace w').
      { destruct (run_cell_constant_bindings c w
                    (todo_constant_binding n c Hn Hne))
          as (o2 & w2 & Hrun2 & _ & Ht & _).
        rewrite Hrun in Hrun2. injection Hrun2 as _ <-. by rewrite Ht. }
      destruct Hpre as [evs Hevs]. rewrite Hevs, drop_app_length in Hev.
      by rewrite Hevs, Hev, app_nil_r.
Qed.

Lemma stub_cells_with_numpy cs : ∀ w,
  Forall is_stub cs → globals w !! "np" = Some (VModule "numpy") →
  ∃ w', run_cells cs w = (Ret (), w') ∧ files w' = files w ∧
        globals w' !! "np" = Some (VModule "numpy") ∧ quiet w w'.
Proof.
  induction cs as [|c rest IH]; intros w Hall Hnp.
  - exists w. split; [done|]. split; [done|]. split; [done|].
    exists []. by rewrite app_nil_r.
  - apply Forall_cons in Hall as [Hc Hrest].
    destruct (stub_cell_with_numpy c w Hc Hnp) as (w1 & Hrun & Hf & Hnp1 & Hq).
    destruct (IH w1 Hrest Hnp1) as (w2 & Hrun2 & Hf2 & Hnp2 & Hq2).
    exists w2. cbn [run_cells]. rewrite bind_run, Hrun.
    split; [exact Hrun2|]. split; [congruence|]. split; [exact Hnp2|].
    by eapply quiet_trans.
Qed.

Lemma import_cell_run w :
  import_cell w =
    (Ret (),
     World (files w)
       (<["preprocessing" := VModule "sklearn.preprocessing"]>
          (<["linear_model" := VModule "sklearn.linear_model"]>
             (<["plt" := VModule "matplotlib.pyplot"]>
                (<["np" := VModule "numpy"]> (globals w)))))
       (trace w ++ [EvImport "numpy"; EvImport "matplotlib.pyplot";
                    EvImport "sklearn.linear_model";
                    EvImport "sklearn.preprocessing"])).
Proof. unfold import_cell, import_as. py_run. by rewrite <- !app_assoc. Qed.

(** X17.  After the import cell, stub cells can be run in any order and any
    number of times: none raises, none prints or sends a request, and the
    files stay as they were. *)
Theorem stub_cells_run_after_imports cs w :
  Forall is_stub cs →
  ∃ w1 w2, import_cell w = (Ret (), w1) ∧
           run_cells cs w1 = (Ret (), w2) ∧
           files w2 = files w ∧
           quiet w w2.
Proof.
  intros Hall. rewrite import_cell_run.
  match goal with |- context [(Ret (), ?w0) = _] => set (w1 := w0) end.
  destruct (stub_cells_with_numpy cs w1 Hall) as (w2 & Hrun & Hf & _ & Hq).
  { unfold w1. cbn [globals]. rewrite !lookup_insert_ne by done.
    apply lookup_insert_eq. }
  exists w1, w2. split; [reflexivity|]. split; [exact Hrun|]. split; [exact Hf|].
  eapply quiet_trans; [|exact Hq]. eexists. split; [reflexivity|]. done.
Qed.

(** X18.  With [np] bound to numpy, running a stub cell a second time
    changes nothing: the globals after the second run are those after the
    first, and the files are untouched. *)
Theorem stub_cell_rerun c w :
  is_stub c →
  globals w !! "np" = Some (VModule "numpy") →
  ∃ w1 w2, run_cell c w = (Ret (), w1) ∧
           run_cell c w1 = (Ret (), w2) ∧
           globals w2 = globals w1 ∧
           files w2 = files w.
Proof.
  intros [n Hc] Hnp.
  do 23 (destruct n as [|n];
         [ first
             [ discriminate Hc
             | injection Hc as <-; eexists _, _;
               split; [cell_run Hnp; reflexivity|];
               split; [cell_run Hnp; reflexivity|];
               cbn [files globals]; split; [|reflexivity];
               first [ reflexivity
                     | apply map_eq; intros k; rewrite !lookup_insert;
                       repeat case_decide; congruence ] ]
         | ]).
  discriminate Hc.
Qed.

(** ** The further properties at concrete inputs *)

Import Examples MoreExamples.

Lemma download_file_fails_before_opening_witness :
  ∃ w', download_file unreachable "u" "d" fresh = (Raise ConnectionError, w') ∧
        files w' = files fresh.
Proof.
  destruct (download_file_fails_before_opening unreachable "u" "d" fresh)
    as (w' & Hrun & Hf & _); [reflexivity | by left |].
  exists w'. split; [exact Hrun | exact Hf].
Defined.


Lemma download_file_frame_witness :
  globals (download_file (server short_response) "u" "d" with_zip).2
    = globals with_zip.
Proof.
  destruct (download_file (server short_response) "u" "d" with_zip)
    as [o w'] eqn:Hrun.
  destruct (download_file_frame (server short_response) "u" "d" with_zip o w' Hrun)
    as [Hg _].
  exact Hg.
Defined.



Lemma driver_files_present_witness :
  ∃ w', driver unreachable no_archive unpacked = (Ret (), w') ∧
        files w' = files unpacked.
Proof.
  destruct (driver_files_present unreachable no_archive unpacked)
    as (w' & Hrun & Hf & _); [vm_compute; eauto..|].
  exists w'. split; [exact Hrun | exact Hf].
Defined.

Lemma driver_stale_flag_witness :
  ∃ w', driver (server short_response) emnist_archive (stale true) = (Ret (), w') ∧
        new_events (stale true) w' = [].
Proof.
  destruct (driver_stale_flag (server short_response) emnist_archive (stale true)
              (VBool true))
    as (w' & Hrun & _ & Hev & _);
    [vm_compute; eauto | right; reflexivity | reflexivity | reflexivity |].
  exists w'. split; [exact Hrun | exact Hev].
Defined.




Lemma driver_bad_archive_stuck_witness :
  ∃ w1 w2, driver (server short_response) no_archive fresh = (Raise BadZipFile, w1) ∧
           driver (server unsized_response) no_archive w1 = (Raise BadZipFile, w2) ∧
           requested (new_events w1 w2) = [].
Proof.
  destruct (driver_bad_archive_stuck (server short_response) no_archive fresh
              short_response 5)
    as (w1 & Hrun & _ & Hagain); [reflexivity..|].
  destruct (Hagain (server unsized_response)) as (w2 & Hrun2 & Hq & _).
  exists w1, w2. split; [exact Hrun|]. split; [exact Hrun2 | exact Hq].
Defined.


Lemma mismatched_mat_not_well_formed : ¬ well_formed mismatched_mat.
Proof.
  intros (ds & Xtr & Xts & ltr & lts & Hds & Hf1 & _ & Hf2 & _ & _ & _ & Hfit & _).
  unfold mismatched_mat in Hds. rewrite lookup_insert_eq in Hds.
  injection Hds as <-. cbn in Hf1, Hf2. injection Hf1 as <-. injection Hf2 as <-.
  destruct Hfit as [_ Hlen]. cbn in Hlen. discriminate Hlen.
Defined.

Lemma load_emnist_fails_clean_witness :
  ∃ e, load_emnist (λ _, mret mismatched_mat) "emnist-digits.mat" fresh
         = (Raise e, fresh).
Proof.
  apply (load_emnist_fails_clean (λ _, mret mismatched_mat) "emnist-digits.mat"
           fresh mismatched_mat fresh); [reflexivity|].
  exact mismatched_mat_not_well_formed.
Defined.

Lemma load_emnist_missing_key_witness :
  load_emnist (λ _, mret empty_mat) "emnist-digits.mat" fresh
    = (Raise (KeyError "dataset"), fresh).
Proof.
  apply (load_emnist_missing_key (λ _, mret empty_mat) "emnist-digits.mat"
           fresh empty_mat fresh); reflexivity.
Defined.

Lemma load_emnist_label_count_mismatch_witness :
  load_emnist (λ _, mret mismatched_mat) "emnist-digits.mat" fresh
    = (Raise ValueError, fresh).
Proof.
  eapply (load_emnist_label_count_mismatch (λ _, mret mismatched_mat)
            "emnist-digits.mat" fresh mismatched_mat fresh _ _ _ 2%nat);
    [reflexivity | apply lookup_insert_eq | reflexivity | reflexivity
    | reflexivity | discriminate | cbn; lia ].
Defined.

Lemma plt_digit_wrong_size_witness :
  plt_digit three_pixels (Some 7) blank_axes = (Raise ValueError, blank_axes).
Proof. apply plt_digit_wrong_size. cbn. lia. Defined.

Lemma plt_digit_shows_transposed_witness :
  ∃ img, (plt_digit ramp (Some 7) blank_axes).2 =
           Axes [(img, "Greys_r")] (Some []) (Some []) (Some "7") ∧
         item2 img 0 1 = Some 28.
Proof.
  destruct (plt_digit_shows_transposed ramp (Some 7) blank_axes)
    as (img & Hrun & _ & Hpix); [reflexivity | reflexivity |].
  exists img. split; [by rewrite Hrun|].
  rewrite (Hpix 0%nat 1%nat) by lia. reflexivity.
Defined.

Lemma some_cells_are_stubs : Forall is_stub some_cells.
Proof.
  repeat constructor; [by exists 14%nat | by exists 5%nat | by exists 9%nat
                      | by exists 14%nat].
Defined.

Lemma stub_cells_run_after_imports_witness :
  ∃ w1 w2, import_cell fresh = (Ret (), w1) ∧
           run_cells some_cells w1 = (Ret (), w2) ∧
           files w2 = files fresh.
Proof.
  destruct (stub_cells_run_after_imports some_cells fresh some_cells_are_stubs)
    as (w1 & w2 & H1 & H2 & Hf & _).
  exists w1, w2. split; [exact H1|]. split; [exact H2 | exact Hf].
Defined.

Lemma stub_cell_rerun_witness :
  ∃ w1 w2, run_cell (default [] (todo 14)) numpy_bound = (Ret (), w1) ∧
           run_cell (default [] (todo 14)) w1 = (Ret (), w2) ∧
           globals w2 = globals w1.
Proof.
  destruct (stub_cell_rerun (default [] (todo 14)) numpy_bound)
    as (w1 & w2 & H1 & H2 & Hg & _);
    [by exists 14%nat | reflexivity |].
  exists w1, w2. split; [exact H1|]. split; [exact H2 | exact Hg].
Defined.
